(** * Comfyui-Nodes-basenc: response normalisation, message building,
      JMESPath selection and Wan video sizing

    A shallow embedding of the Python nodes of the repository
    ([custom_openai_chat_completion.py], [json_path_select.py],
    [wan_video_size.py]) together with the properties the specification
    states about them.

    Python values that can come out of [json.loads] are embedded as the
    inductive type [value]; a Python exception is an [exn] carried by
    the [result] monad; a Python list object that is copied and appended
    to lives in a [heap] of list objects addressed by location. *)

From Stdlib Require Import ZArith String Ascii List Bool Lia.
From Stdlib Require Import Floats.SpecFloat.
From stdpp Require Import base option list gmap strings pretty sorting.

Local Open Scope string_scope.
Local Open Scope Z_scope.
Local Open Scope list_scope.

#[local] Set Warnings "-register-all".

(** ** Python values *)

(** What [json.loads] produces: [None], [bool], [int], [float], [str],
    [list] and [dict] with [str] keys.  A [dict] is kept as an
    association list in insertion order; the first binding of a key is
    the binding of the key. *)
Inductive value : Type :=
| VNone
| VBool (b : bool)
| VInt (z : Z)
| VFloat (f : spec_float)
| VStr (s : string)
| VList (l : list value)
| VDict (d : list (string * value)).

Abbreviation dict := (list (string * value)).

(** The exceptions the embedded code can raise. *)
Inductive exn : Type :=
| TypeError
| AttributeError
| KeyError
| IndexError
| ValueError (msg : string).

Inductive result (A : Type) : Type :=
| Ok (a : A)
| Raise (e : exn).
Arguments Ok {A} a.
Arguments Raise {A} e.

#[global] Instance result_ret : MRet result := λ A a, Ok a.
#[global] Instance result_bind : MBind result := λ A B f m,
  match m with
  | Ok a => f a
  | Raise e => Raise e
  end.

Definition raises {A} (r : result A) : bool :=
  match r with Ok _ => false | Raise _ => true end.

(** ** Host types *)

(** [IO.NodeOutput(a1, ..., an)]: the outputs a node hands back. *)
Record NodeOutput : Type := mkNodeOutput { args : list value }.

(** A [torch.Tensor], of which the nodes only read [shape]. *)
Record Tensor : Type := mkTensor { shape : list Z }.

(** ** Python primitives used by the nodes *)

Module Py.

(** [bool(v)]: the truth value of a Python object. *)
Definition truthy (v : value) : bool :=
  match v with
  | VNone => false
  | VBool b => b
  | VInt z => negb (z =? 0)
  | VFloat (S754_zero _) => false
  | VFloat _ => true
  | VStr s => negb (s =? "")%string
  | VList l => match l with [] => false | _ => true end
  | VDict d => match d with [] => false | _ => true end
  end.

(** [a or b]. *)
Definition or_ (a b : value) : value := if truthy a then a else b.

(** [v == s] for a string literal [s]. *)
Definition eq_str (v : value) (s : string) : bool :=
  match v with
  | VStr s' => (s' =? s)%string
  | _ => false
  end.

Fixpoint dict_get (k : string) (d : dict) : option value :=
  match d with
  | [] => None
  | (k', v) :: d' => if (k' =? k)%string then Some v else dict_get k d'
  end.

(** [k in d]. *)
Definition contains (k : string) (d : dict) : bool :=
  match dict_get k d with Some _ => true | None => false end.

(** [d.get(k, dflt)] on a dict. *)
Definition dget (d : dict) (k : string) (dflt : value) : value :=
  match dict_get k d with Some v => v | None => dflt end.

(** [o.get(k, dflt)] on an arbitrary object: only a dict has [get]. *)
Definition get (o : value) (k : string) (dflt : value) : result value :=
  match o with
  | VDict d => Ok (dget d k dflt)
  | _ => Raise AttributeError
  end.

(** [o[k]] for a string key [k]. *)
Definition getitem (o : value) (k : string) : result value :=
  match o with
  | VDict d => match dict_get k d with Some v => Ok v | None => Raise KeyError end
  | _ => Raise TypeError
  end.

(** [o[0]]. A dict built from JSON has only string keys, so [d[0]] is a
    [KeyError]. *)
Definition getitem0 (o : value) : result value :=
  match o with
  | VList (x :: _) => Ok x
  | VList [] => Raise IndexError
  | VStr (String c _) => Ok (VStr (String c ""))
  | VStr EmptyString => Raise IndexError
  | VDict _ => Raise KeyError
  | _ => Raise TypeError
  end.

Fixpoint chars (s : string) : list value :=
  match s with
  | EmptyString => []
  | String c s' => VStr (String c "") :: chars s'
  end.

(** The items a [for x in o] loop visits. *)
Definition iter (o : value) : result (list value) :=
  match o with
  | VList l => Ok l
  | VStr s => Ok (chars s)
  | VDict d => Ok (map (λ kv, VStr (fst kv)) d)
  | _ => Raise TypeError
  end.

(** [hash(v)] is defined for everything but lists and dicts. *)
Definition hashable (v : value) : bool :=
  match v with
  | VList _ | VDict _ => false
  | _ => true
  end.

(** [v in {s1, ..., sn}] for a set literal of strings. *)
Definition in_strset (v : value) (ss : list string) : result bool :=
  if hashable v then Ok (existsb (eq_str v) ss) else Raise TypeError.

(** [isinstance(v, list)], [isinstance(v, dict)]. *)
Definition is_list (v : value) : bool :=
  match v with VList _ => true | _ => false end.
Definition is_dict (v : value) : bool :=
  match v with VDict _ => true | _ => false end.

(** ["".join(parts)]. *)
Fixpoint join (parts : list value) : result string :=
  match parts with
  | [] => Ok ""
  | VStr s :: rest => r ← join rest; mret (String.append s r)
  | _ :: _ => Raise TypeError
  end.

(** [d[k] = v]: an existing key keeps its place, a new key goes last. *)
Fixpoint dict_set (k : string) (v : value) (d : dict) : dict :=
  match d with
  | [] => [(k, v)]
  | (k', v') :: d' =>
      if (k' =? k)%string then (k, v) :: d' else (k', v') :: dict_set k v d'
  end.

(** [l[-1]] on a non-empty list. *)
Definition last_item (x : value) (l : list value) : value := List.last l x.

(** [sys.int_info.default_max_str_digits]: the longest integer, in
    decimal digits, that [str] converts. *)
Definition max_str_digits : Z := 4300.

(** The integer has more than [max_str_digits] decimal digits. *)
Definition exceeds_str_digits (z : Z) : bool := 10 ^ max_str_digits <=? Z.abs z.

Definition str_digits_error : exn :=
  ValueError
    ("Exceeds the limit (4300 digits) for integer string conversion; "
     +:+ "use sys.set_int_max_str_digits() to increase the limit").

(** [str(v)].  Strings, booleans and integers are printed here, an
    integer of more than [max_str_digits] digits being refused with a
    [ValueError]; the text of everything else (floats, [None],
    containers) is its [repr], which is taken from the interpreter. *)
Definition str (repr : value → string) (v : value) : result string :=
  match v with
  | VStr s => Ok s
  | VBool true => Ok "True"
  | VBool false => Ok "False"
  | VInt z => if exceeds_str_digits z then Raise str_digits_error else Ok (pretty z)
  | _ => Ok (repr v)
  end.

(** [isinstance(v, (str, int, float, bool))]. *)
Definition is_scalar (v : value) : bool :=
  match v with
  | VStr _ | VInt _ | VFloat _ | VBool _ => true
  | _ => false
  end.

(** [try: <body> finally: return r]: the [return] of the [finally]
    clause replaces whatever the body returned or raised. *)
Definition finally_return {A} (body : result A) (r : A) : result A :=
  match body with
  | Ok _ => Ok r
  | Raise _ => Ok r
  end.

(** A [for] loop whose body threads a state and may raise. *)
Fixpoint for_each {S : Type} (body : S → value → result S)
    (items : list value) (s : S) : result S :=
  match items with
  | [] => Ok s
  | x :: rest => s' ← body s x; for_each body rest s'
  end.

End Py.

(** ** custom_openai_chat_completion.py *)

Module CustomOpenAIChatCompletion.

(** The set literal of [_extract_text], "Skip non-text types". *)
Definition non_text_types : list string :=
  ["function_call"; "tool_call"; "mcp_call"; "mcp_approval_request";
   "mcp_list_tools"; "tool_output"; "reasoning"; "code_interpreter";
   "computer_use"].

(** Body of [for c in item.get("content", [])]. *)
Definition content_step (parts : list value) (c : value) : result (list value) :=
  ty ← Py.get c "type" VNone;
  b ← Py.in_strset ty ["output_text"; "input_text"];
  if (b : bool) then
    tx ← Py.get c "text" VNone;
    if Py.truthy tx then x ← Py.getitem c "text"; mret (parts ++ [x])
    else mret parts
  else mret parts.

(** Body of [for item in data.get("output", [])]. *)
Definition text_item_step (parts : list value) (item : value) : result (list value) :=
  t ← Py.get item "type" VNone;
  skip ← Py.in_strset t non_text_types;
  if (skip : bool) then mret parts
  else
    parts1 ←
      (if Py.eq_str t "message" then
         content ← Py.get item "content" (VList []);
         cs ← Py.iter content;
         Py.for_each content_step cs parts
       else mret parts);
    if Py.eq_str t "output_text" then
      tx ← Py.get item "text" VNone;
      if Py.truthy tx then x ← Py.getitem item "text"; mret (parts1 ++ [x])
      else mret parts1
    else mret parts1.

Definition _extract_text (data : dict) : result value :=
  if Py.contains "output" data || Py.contains "output_text" data then
    if Py.contains "output_text" data then
      x ← Py.getitem (VDict data) "output_text";
      mret (Py.or_ x (VStr ""))
    else
      items ← Py.iter (Py.dget data "output" (VList []));
      parts ← Py.for_each text_item_step items [];
      s ← Py.join parts;
      mret (VStr s)
  else if Py.eq_str (Py.dget data "object" VNone) "chat.completion" then
    let choices := Py.or_ (Py.dget data "choices" VNone) (VList []) in
    if negb (Py.truthy choices) then mret (VStr "")
    else
      c0 ← Py.getitem0 choices;
      msg ← Py.get c0 "message" (VDict []);
      content ← Py.get msg "content" VNone;
      mret (Py.or_ content (VStr ""))
  else
    let choices := Py.dget data "choices" VNone in
    if Py.truthy choices && Py.is_list choices then
      c0 ← Py.getitem0 choices;
      tx ← Py.get c0 "text" (VStr "");
      mret (Py.or_ tx (VStr ""))
    else mret (VStr "").

(** The dict literal [{"type": .., "id": .., "function": {"name": .., "arguments": ..}}]. *)
Definition tool_call (ty id name arguments : value) : value :=
  VDict [("type", ty); ("id", id);
         ("function", VDict [("name", name); ("arguments", arguments)])].

Definition call_types : list string := ["function_call"; "tool_call"; "mcp_call"].

(** Body of [for item in data["output"]]. *)
Definition output_call_step (calls : list value) (item : value) : result (list value) :=
  t ← Py.get item "type" VNone;
  b ← Py.in_strset t call_types;
  if (b : bool) then
    id1 ← Py.get item "id" VNone;
    id ← (if Py.truthy id1 then mret id1 else Py.get item "call_id" VNone);
    f1 ← Py.get item "function" (VDict []);
    name ← Py.get f1 "name" (VStr "");
    f2 ← Py.get item "function" (VDict []);
    arguments ← Py.get f2 "arguments" (VStr "");
    mret (calls ++ [tool_call t id name arguments])
  else mret calls.

(** Body of [for tc in tcs]. *)
Definition chat_call_step (calls : list value) (tc : value) : result (list value) :=
  fn ← Py.get tc "function" (VDict []);
  ty ← Py.get tc "type" (VStr "function");
  id ← Py.get tc "id" VNone;
  name ← Py.get fn "name" (VStr "");
  arguments ← Py.get fn "arguments" (VStr "");
  mret (calls ++ [tool_call ty id name arguments]).

Definition _extract_tool_calls (data : dict) : result (list value) :=
  let calls := [] in
  if Py.contains "output" data then
    out ← Py.getitem (VDict data) "output";
    items ← Py.iter out;
    Py.for_each output_call_step items calls
  else if Py.eq_str (Py.dget data "object" VNone) "chat.completion" then
    let choices := Py.or_ (Py.dget data "choices" VNone) (VList []) in
    if negb (Py.truthy choices) then mret []
    else
      c0 ← Py.getitem0 choices;
      msg ← Py.get c0 "message" (VDict []);
      tc0 ← Py.get msg "tool_calls" VNone;
      tcs ← Py.iter (Py.or_ tc0 (VList []));
      Py.for_each chat_call_step tcs calls
  else mret [].

(** *** The assistant turn appended by [execute]

    [messages] is a Python list object: [list(messages)] makes a second
    list object with the same items and [append] writes to that second
    object.  List objects live in a heap; a location stands for the
    reference held by a Python variable. *)

Abbreviation loc := nat.
Abbreviation heap := (gmap nat (list value)).

(** Heap-passing computations that may raise. *)
Definition M (A : Type) : Type := heap → result (A * heap).

Definition ret {A} (a : A) : M A := λ h, Ok (a, h).
Definition bind {A B} (m : M A) (f : A → M B) : M B := λ h,
  match m h with
  | Ok (a, h') => f a h'
  | Raise e => Raise e
  end.
Definition lift {A} (r : result A) : M A := λ h,
  match r with
  | Ok a => Ok (a, h)
  | Raise e => Raise e
  end.

Notation "x ⇐ m ;; k" := (bind m (λ x, k))
  (at level 100, m at next level, right associativity).

(** A new list object holding [l]. *)
Definition alloc (l : list value) : M loc := λ h,
  let r := fresh (dom h) in Ok (r, <[r := l]> h).

(** The items of the list object at [r].  Every reference the code
    holds is to a live object; a location outside the heap is an error. *)
Definition read (r : loc) : M (list value) := λ h,
  match h !! r with
  | Some l => Ok (l, h)
  | None => Raise TypeError
  end.

(** [list(x)] for a list object [x]: a new object with the same items. *)
Definition list_copy (r : loc) : M loc :=
  l ⇐ read r ;; alloc l.

(** [x.append(v)]: the object at [r] is updated in place. *)
Definition list_append (r : loc) (v : value) : M unit := λ h,
  match h !! r with
  | Some l => Ok (tt, <[r := l ++ [v]]> h)
  | None => Raise TypeError
  end.

(** The dict literal
    [{"role": "assistant", **({"content": [..]} if response_text else {}),
      **({"tool_calls": tool_calls} if tool_calls else {})}]. *)
Definition assistant_entry (response_text tool_calls : value) : dict :=
  [("role", VStr "assistant")]
  ++ (if Py.truthy response_text
      then [("content", VList [VDict [("type", VStr "text"); ("text", response_text)]])]
      else [])
  ++ (if Py.truthy tool_calls then [("tool_calls", tool_calls)] else []).

(** [messages_out = list(messages); messages_out.append({...})]; the
    specification calls this step [append_assistant_turn]. *)
Definition append_assistant_turn (messages : loc) (response_text tool_calls : value)
    : M loc :=
  messages_out ⇐ list_copy messages ;;
  _ ⇐ list_append messages_out (VDict (assistant_entry response_text tool_calls)) ;;
  ret messages_out.

(** [s.rstrip("/")]. *)
Fixpoint rstrip_slash (s : string) : string :=
  match s with
  | EmptyString => ""
  | String c s' =>
      let r := rstrip_slash s' in
      if (r =? "")%string && (c =? "/")%char then "" else String c r
  end.

(** [s.removesuffix(suf)]. *)
Definition removesuffix (s suf : string) : string :=
  let n := String.length s in
  let k := String.length suf in
  if (k <=? n)%nat && (substring (n - k) k s =? suf)%string
  then substring 0 (n - k) s else s.

(** The keyword arguments of [client.chat.completions.create]. *)
Record request : Type := mkRequest {
  req_model : string;
  req_messages : list value;
  req_temperature : spec_float;
  req_timeout : spec_float;
  req_tools : value;
  req_max_tokens : option Z
}.

Section Execute.

(** Collaborators outside the repository: [os.environ.get], [json.loads],
    [json.dumps(_, indent=2)] and the OpenAI client, whose
    [create(...).model_dump()] is taken as one call from the key, the
    base URL and the request to the decoded response. *)
Variable environ_get : string → string → string.
Variable json_loads : string → result value.
Variable json_dumps : value → string.
Variable chat_completions_create : string → string → request → result dict.

Definition execute (api_base api_key model : string) (messages_json : option string)
    (tools_json : string) (temperature : spec_float) (max_tokens : Z)
    (timeout_seconds : spec_float) : M NodeOutput :=
  let api_key :=
    if (api_key =? "")%string then environ_get "OPENAI_API_KEY" "" else api_key in
  if (api_key =? "")%string then
    lift (Raise (ValueError "API key is required; provide it via input or OPENAI_API_KEY."))
  else
    match messages_json with
    | None | Some EmptyString =>
        lift (Raise (ValueError
          "`messages_json` is required; provide a JSON-encoded non-empty list of messages."))
    | Some messages_json =>
        parsed ⇐ lift (json_loads messages_json) ;;
        match parsed with
        | VList (m :: ms) =>
            messages ⇐ alloc (m :: ms) ;;
            tools ⇐ lift (if (tools_json =? "")%string then Ok (VList [])
                          else json_loads tools_json) ;;
            let base := removesuffix (rstrip_slash api_base) "/chat/completions" in
            sent ⇐ read messages ;;
            data ⇐ lift (chat_completions_create api_key base
                     {| req_model := model;
                        req_messages := sent;
                        req_temperature := temperature;
                        req_timeout := timeout_seconds;
                        req_tools := if Py.truthy tools then tools else VNone;
                        req_max_tokens :=
                          if 0 <? max_tokens then Some max_tokens else None |}) ;;
            response_text ⇐ lift (_extract_text data) ;;
            tool_calls ⇐ lift (_extract_tool_calls data) ;;
            let tool_calls_json := json_dumps (VList tool_calls) in
            let raw_json := json_dumps (VDict data) in
            messages_out ⇐ append_assistant_turn messages response_text (VList tool_calls) ;;
            out ⇐ read messages_out ;;
            let messages_json_out := json_dumps (VList out) in
            ret (mkNodeOutput [response_text; VStr raw_json; VStr tool_calls_json;
                               VStr messages_json_out])
        | _ =>
            lift (Raise (ValueError
              "`messages_json` must decode to a non-empty list of messages."))
        end
    end.

End Execute.

End CustomOpenAIChatCompletion.

(** *** ChatMessagesCreate *)

Module ChatMessagesCreate.

Section Execute.

(** Collaborators outside the repository: [json.loads], [json.dumps]
    and the host's [tensor_to_data_uri]. *)
Variable json_loads : string → result value.
Variable json_dumps : value → string.
Variable tensor_to_data_uri : Tensor → string → result string.

(** [for prev in reversed(messages): ...] with [tc_id] as loop state;
    [prevs] is the reversed list.  The result is [tc_id] after the loop. *)
Fixpoint find_tool_call_id (prevs : list value) (tc_id : value) : result value :=
  match prevs with
  | [] => Ok tc_id
  | prev :: rest =>
      role ← Py.get prev "role" VNone;
      if negb (Py.eq_str role "assistant") then find_tool_call_id rest tc_id
      else
        tc_list ← Py.get prev "tool_calls" VNone;
        match tc_list with
        | VList (c :: cs) =>
            let last_call := Py.last_item c (c :: cs) in
            let tc_id :=
              match last_call with
              | VDict d =>
                  Py.or_ (Py.or_ (Py.dget d "id" VNone) (Py.dget d "call_id" VNone))
                         (VStr "")
              | _ => tc_id
              end in
            if Py.truthy tc_id then Ok tc_id else find_tool_call_id rest tc_id
        | _ => find_tool_call_id rest tc_id
        end
  end.

Definition text_part (content : string) : value :=
  VDict [("type", VStr "text"); ("text", VStr content)].

Definition image_part (data_uri : string) : value :=
  VDict [("type", VStr "image_url");
         ("image_url", VDict [("url", VStr data_uri); ("detail", VStr "auto")])].

Definition execute (messages_json role content : string) (image : option Tensor)
    : result NodeOutput :=
  messages ← (if (messages_json =? "")%string then Ok []
              else v ← json_loads messages_json; Py.iter v);
  let content_parts := if (content =? "")%string then [] else [text_part content] in
  content_parts ←
    match image with
    | Some img =>
        data_uri ← tensor_to_data_uri img "image/png";
        mret (content_parts ++ [image_part data_uri])
    | None => mret content_parts
    end;
  let message_content :=
    if Py.truthy (VList content_parts) then VList content_parts
    else if (content =? "")%string then VList [] else VList [text_part content] in
  let message : dict := [("role", VStr role); ("content", message_content)] in
  message ←
    (if (role =? "tool")%string then
       tc_id ← find_tool_call_id (rev messages) (VStr "");
       if negb (Py.truthy tc_id) then
         Raise (ValueError "role=tool requires an assistant tool_call upstream; none found.")
       else mret (Py.dict_set "tool_call_id" tc_id message)
     else mret message);
  mret (mkNodeOutput [VStr (json_dumps (VList (messages ++ [VDict message])))]).

End Execute.

End ChatMessagesCreate.

(** ** json_path_select.py *)

Module JSONPathSelect.

Section Execute.

(** Collaborators outside the repository: [json.loads],
    [jmespath.search], [json.dumps(_, indent=2)] and the interpreter's
    [repr]. *)
Variable json_loads : string → result value.
Variable jmespath_search : string → value → result value.
Variable json_dumps : value → result string.
Variable repr : value → string.

Definition execute (json_text path : string) : result NodeOutput :=
  if (json_text =? "")%string || (path =? "")%string then
    Ok (mkNodeOutput [VStr ""])
  else
    data ← json_loads json_text;
    match jmespath_search path data with
    | Raise _ => Ok (mkNodeOutput [VStr ""])
    | Ok current =>
        if Py.is_scalar current then
          s ← Py.str repr current; mret (mkNodeOutput [VStr s])
        else
          Py.finally_return
            (s ← json_dumps current; mret (mkNodeOutput [VStr s]))
            (mkNodeOutput [VStr ""])
    end.

End Execute.

End JSONPathSelect.

(** ** wan_video_size.py *)

Module WanVideoSize.

Definition _SIZE_TABLE : list (string * list (string * (Z * Z))) :=
  [("480p", [("landscape", (640, 480)); ("portrait", (480, 640)); ("square", (480, 480))]);
   ("720p", [("landscape", (1280, 720)); ("portrait", (720, 1280)); ("square", (720, 720))]);
   ("1080p", [("landscape", (1920, 1088)); ("portrait", (1088, 1920));
              ("square", (1088, 1088))])].

(** [table.get(k)] on a dict literal with string keys. *)
Fixpoint table_get {A} (k : string) (t : list (string * A)) : option A :=
  match t with
  | [] => None
  | (k', a) :: t' => if (k' =? k)%string then Some a else table_get k t'
  end.

(** [shape[-i]] for [i >= 1]. *)
Definition shape_from_end (sh : list Z) (i : nat) : result Z :=
  match rev sh !! (i - 1)%nat with
  | Some d => Ok d
  | None => Raise IndexError
  end.

Section Execute.

(** [diff / min_dim < threshold] is a comparison of binary floating
    point numbers at the default threshold [0.1]; its outcome is taken
    from the interpreter. *)
Variable ratio_below_threshold : Z → Z → bool.

Definition _orientation_from_image (image : Tensor) : result string :=
  h ← shape_from_end (shape image) 3;
  w ← shape_from_end (shape image) 2;
  if (h <=? 0) || (w <=? 0) then
    Raise (ValueError ("Invalid image dimensions: " +:+ pretty w +:+ "x" +:+ pretty h))
  else
    let min_dim := Z.min w h in
    let diff := Z.abs (w - h) in
    if (0 <? min_dim) && ratio_below_threshold diff min_dim then Ok "square"
    else if h <? w then Ok "landscape"
    else if w <? h then Ok "portrait"
    else Ok "square".

Definition execute (image : option Tensor) (resolution orientation : string)
    : result NodeOutput :=
  match image with
  | None => Raise (ValueError "image is required.")
  | Some image =>
      orientation ←
        (if (orientation =? "auto")%string then _orientation_from_image image
         else Ok orientation);
      match table_get resolution _SIZE_TABLE with
      | None => Raise (ValueError ("Unknown resolution preset: " +:+ resolution))
      | Some resolution_sizes =>
          match table_get orientation resolution_sizes with
          | None => Raise (ValueError ("Unknown orientation: " +:+ orientation))
          | Some (w, h) => Ok (mkNodeOutput [VInt w; VInt h])
          end
      end
  end.

End Execute.

End WanVideoSize.

(** ** env_var_node.py *)

Module EnvVarNode.

(** The order [sorted] puts strings in: character by character, by
    code. *)
Definition str_le (a b : string) : Prop := String.leb a b = true.

#[global] Instance str_le_dec : RelDecision str_le :=
  λ a b, decide (String.leb a b = true).

Section Execute.

(** The process environment [os.environ] and, when the [.env] file of
    the ComfyUI root exists, what [dotenv_values] reads from it: a dict
    from keys to a string or [None] (a key written without a value). *)
Variable environ : gmap string string.
Variable dotenv_file : option (list (string * option string)).

Definition _dotenv_keys : list string :=
  match dotenv_file with
  | None => []
  | Some values => map fst values
  end.

(** [key in keys] for a list of strings. *)
Definition mem (key : string) (keys : list string) : bool :=
  existsb (String.eqb key) keys.

(** [key in os.environ]. *)
Definition in_environ (key : string) : bool :=
  match environ !! key with
  | Some _ => true
  | None => false
  end.

Definition _available_env_keys : list string :=
  let keys : gset string := list_to_set _dotenv_keys in
  let keys :=
    keys ∪ filter (λ key, String.prefix "COMFYUI_" key = true) (dom environ) in
  merge_sort str_le (elements keys).

Definition _dotenv_value_for (env_key : string) : value :=
  if (env_key =? "")%string then VStr ""
  else
    match dotenv_file with
    | None => VStr ""
    | Some values =>
        match WanVideoSize.table_get env_key values with
        | Some (Some v) => VStr v
        | Some None => VNone
        | None => VStr ""
        end
    end.

Definition not_set (env_key : string) : exn :=
  ValueError ("Environment variable '" +:+ env_key +:+ "' is not set.").

Definition execute (env_key default_value : string)
    (use_fallback_when_empty error_when_missing : bool) : result NodeOutput :=
  if (env_key =? "")%string then
    if error_when_missing then
      Raise (ValueError "No environment variable key provided.")
    else Ok (mkNodeOutput [VStr ""])
  else
    let dotenv_keys := _dotenv_keys in
    let resolved := _dotenv_value_for env_key in
    let env_value := default "" (environ !! env_key) in
    let resolved := if (env_value =? "")%string then resolved else VStr env_value in
    if negb (Py.truthy resolved)
       && (negb (default_value =? "")%string || use_fallback_when_empty)
    then
      if error_when_missing && negb (in_environ env_key)
         && negb (mem env_key dotenv_keys)
      then Raise (not_set env_key)
      else
        let resolved :=
          if use_fallback_when_empty || negb (in_environ env_key)
          then VStr default_value else resolved in
        Ok (mkNodeOutput [resolved])
    else if negb (Py.truthy resolved) && error_when_missing
            && negb (in_environ env_key) && negb (mem env_key dotenv_keys)
    then Raise (not_set env_key)
    else Ok (mkNodeOutput [resolved]).

End Execute.

End EnvVarNode.

(** ** The response shapes of the specification's data model *)

Module Shape.

(** A field that is absent, null or a string. *)
Definition is_text (v : value) : bool :=
  match v with
  | VNone | VStr _ => true
  | _ => false
  end.

(** The nested [function] field is absent or an object. *)
Definition function_ok (d : dict) : bool :=
  match Py.dict_get "function" d with
  | None | Some (VDict _) => true
  | _ => false
  end.

(** A [content] entry of a message item: an object whose [type] is not
    a container; the [text] of an [output_text] or [input_text] entry is
    absent, null or a string. *)
Definition content_entry_ok (c : value) : bool :=
  match c with
  | VDict d =>
      let t := Py.dget d "type" VNone in
      Py.hashable t
      && (if existsb (Py.eq_str t) ["output_text"; "input_text"]
          then is_text (Py.dget d "text" VNone) else true)
  | _ => false
  end.

(** An output item as [_extract_text] reads it: an object whose [type]
    is not a container; the [content] of a [message] item is absent or
    a list of entries; the [text] of an [output_text] item is absent,
    null or a string. *)
Definition text_item_ok (item : value) : bool :=
  match item with
  | VDict d =>
      let t := Py.dget d "type" VNone in
      Py.hashable t
      && (if Py.eq_str t "message" then
            match Py.dict_get "content" d with
            | None => true
            | Some (VList cs) => forallb content_entry_ok cs
            | Some _ => false
            end
          else true)
      && (if Py.eq_str t "output_text" then is_text (Py.dget d "text" VNone)
          else true)
  | _ => false
  end.

(** An output item as [_extract_tool_calls] reads it: an object whose
    [type] is not a container; the [function] of a [function_call],
    [tool_call] or [mcp_call] item is absent or an object. *)
Definition call_item_ok (item : value) : bool :=
  match item with
  | VDict d =>
      let t := Py.dget d "type" VNone in
      Py.hashable t
      && (if existsb (Py.eq_str t) ["function_call"; "tool_call"; "mcp_call"]
          then function_ok d else true)
  | _ => false
  end.

(** An entry of [message.tool_calls]. *)
Definition tool_call_ok (tc : value) : bool :=
  match tc with
  | VDict d => function_ok d
  | _ => false
  end.

(** [tool_calls] is falsy (absent, null, empty) or a list of entries. *)
Definition message_ok (m : dict) : bool :=
  let tcs := Py.dget m "tool_calls" VNone in
  if Py.truthy tcs then
    match tcs with
    | VList l => forallb tool_call_ok l
    | _ => false
    end
  else true.

(** A choice: an object whose [message] is absent or an object. *)
Definition choice_ok (c : value) : bool :=
  match c with
  | VDict d =>
      match Py.dict_get "message" d with
      | None => true
      | Some (VDict m) => message_ok m
      | Some _ => false
      end
  | _ => false
  end.

(** [choices] is falsy (absent, null, empty) or a list whose first
    element is a choice; the later elements are never read. *)
Definition choices_ok (data : dict) : bool :=
  let choices := Py.dget data "choices" VNone in
  if Py.truthy choices then
    match choices with
    | VList (c0 :: _) => choice_ok c0
    | _ => false
    end
  else true.

(** [output], when present, is a list of output items, and [choices]
    is as above. *)
Definition response_ok (data : dict) : bool :=
  match Py.dict_get "output" data with
  | None => true
  | Some (VList items) => forallb text_item_ok items && forallb call_item_ok items
  | Some _ => false
  end
  && choices_ok data.

(** None of the three shapes: no [output], no [output_text], [object]
    is not ["chat.completion"], and [choices] is not a non-empty list. *)
Definition unrecognised (data : dict) : bool :=
  negb (Py.contains "output" data)
  && negb (Py.contains "output_text" data)
  && negb (Py.eq_str (Py.dget data "object" VNone) "chat.completion")
  && negb (Py.truthy (Py.dget data "choices" VNone)
           && Py.is_list (Py.dget data "choices" VNone)).

End Shape.

(** ** What the specification says the extractors return *)

Module Spec.

Import CustomOpenAIChatCompletion.

Definition is_text_type (v : value) : bool :=
  existsb (Py.eq_str v) ["output_text"; "input_text"].

(** The text of a field, when it is a non-empty string. *)
Definition nonempty_text (v : value) : list string :=
  match v with
  | VStr s => if (s =? "")%string then [] else [s]
  | _ => []
  end.

(** The fragment a [content] entry contributes. *)
Definition content_texts (c : value) : list string :=
  match c with
  | VDict d =>
      if is_text_type (Py.dget d "type" VNone)
      then nonempty_text (Py.dget d "text" VNone) else []
  | _ => []
  end.

Definition entries (v : value) : list value :=
  match v with
  | VList l => l
  | _ => []
  end.

(** The fragments an output item contributes, in encounter order. *)
Definition item_texts (item : value) : list string :=
  match item with
  | VDict d =>
      let t := Py.dget d "type" VNone in
      if existsb (Py.eq_str t) non_text_types then []
      else if Py.eq_str t "message" then
        flat_map content_texts (entries (Py.dget d "content" (VList [])))
      else if Py.eq_str t "output_text" then nonempty_text (Py.dget d "text" VNone)
      else []
  | _ => []
  end.

(** Concatenation with no separator. *)
Definition output_text (items : list value) : string :=
  String.concat "" (flat_map item_texts items).

Definition is_call_item (item : value) : bool :=
  match item with
  | VDict d => existsb (Py.eq_str (Py.dget d "type" VNone)) call_types
  | _ => false
  end.

(** The nested [function] object, empty when absent. *)
Definition function_of (d : dict) : dict :=
  match Py.dict_get "function" d with
  | Some (VDict f) => f
  | _ => []
  end.

(** "first non-null wins", read literally. *)
Definition first_non_null (a b : value) : value :=
  match a with
  | VNone => b
  | _ => a
  end.

(** "first truthy wins": null, the empty string, zero and [false]
    give way to the second value. *)
Definition first_truthy (a b : value) : value :=
  if Py.truthy a then a else b.

(** The ToolCall of an output item, with the given choice of id. *)
Definition output_tool_call (pick : value → value → value) (item : value) : value :=
  match item with
  | VDict d =>
      tool_call (Py.dget d "type" VNone)
                (pick (Py.dget d "id" VNone) (Py.dget d "call_id" VNone))
                (Py.dget (function_of d) "name" (VStr ""))
                (Py.dget (function_of d) "arguments" (VStr ""))
  | _ => VNone
  end.

Definition output_tool_calls (pick : value → value → value) (items : list value)
    : list value :=
  map (output_tool_call pick) (List.filter is_call_item items).

(** The ToolCall of an entry of [choices[0].message.tool_calls]. *)
Definition chat_tool_call (tc : value) : value :=
  match tc with
  | VDict d =>
      tool_call (Py.dget d "type" (VStr "function"))
                (Py.dget d "id" VNone)
                (Py.dget (function_of d) "name" (VStr ""))
                (Py.dget (function_of d) "arguments" (VStr ""))
  | _ => VNone
  end.

(** [choices[0].message.tool_calls], defaulting to the empty list. *)
Definition first_choice_tool_calls (choices : value) : list value :=
  match choices with
  | VList (VDict c0 :: _) =>
      match Py.dget c0 "message" (VDict []) with
      | VDict m => entries (Py.dget m "tool_calls" VNone)
      | _ => []
      end
  | _ => []
  end.

(** The tool-call id a message yields: the message is an assistant
    message, its [tool_calls] is a non-empty list, and the last entry
    is an object with a truthy [id] or else a truthy [call_id]. *)
Definition yields_id (m : value) : option value :=
  match m with
  | VDict d =>
      if Py.eq_str (Py.dget d "role" VNone) "assistant" then
        match Py.dget d "tool_calls" VNone with
        | VList (c :: cs) =>
            match Py.last_item c (c :: cs) with
            | VDict lc =>
                let i := Py.dget lc "id" VNone in
                let j := Py.dget lc "call_id" VNone in
                if Py.truthy i then Some i
                else if Py.truthy j then Some j else None
            | _ => None
            end
        | _ => None
        end
      else None
  | _ => None
  end.

(** The first message of [prevs] that yields an id. *)
Fixpoint first_yield (prevs : list value) : option value :=
  match prevs with
  | [] => None
  | m :: rest =>
      match yields_id m with
      | Some i => Some i
      | None => first_yield rest
      end
  end.

(** Searching backwards through the messages. *)
Definition found_tool_call_id (messages : list value) : option value :=
  first_yield (rev messages).

End Spec.

(** ** Concrete responses *)

Module Examples.

Import CustomOpenAIChatCompletion.

Definition obj (d : dict) : value := VDict d.

(** [{"output": [1]}]: an output element that is not an object. *)
Definition number_in_output : dict := [("output", VList [VInt 1])].

(** [{"choices": [1]}]: a choice that is not an object. *)
Definition number_in_choices : dict := [("choices", VList [VInt 1])].

(** One [message] item with two [output_text] entries, a [reasoning]
    item and a [function_call] item. *)
Definition responses_payload : dict :=
  [("id", VStr "resp_1");
   ("output",
    VList
      [obj [("type", VStr "reasoning"); ("text", VStr "hidden")];
       obj [("type", VStr "message");
            ("content",
             VList [obj [("type", VStr "output_text"); ("text", VStr "a")];
                    obj [("type", VStr "output_text"); ("text", VStr "b")]])];
       obj [("type", VStr "function_call"); ("call_id", VStr "c7");
            ("function", obj [("name", VStr "f"); ("arguments", VStr "{}")])]])].

(** [{"id": "x"}]: none of the three shapes. *)
Definition shapeless : dict := [("id", VStr "x")].

(** A function call whose [id] is the empty string. *)
Definition empty_id_items : list value :=
  [obj [("type", VStr "function_call"); ("id", VStr ""); ("call_id", VStr "c9")]].
Definition empty_id_response : dict := [("output", VList empty_id_items)].

(** An empty [output] next to a Chat-Completions body with a tool call. *)
Definition empty_output_chat : dict :=
  [("object", VStr "chat.completion");
   ("output", VList []);
   ("choices",
    VList [obj [("message",
                 obj [("tool_calls", VList [obj [("id", VStr "c1")]])])]])].

(** The Chat-Completions payload of the specification's example. *)
Definition chat_payload : dict :=
  [("object", VStr "chat.completion");
   ("choices",
    VList
      [obj [("message",
             obj [("content", VNone);
                  ("tool_calls",
                   VList [obj [("id", VStr "c1");
                               ("function",
                                obj [("name", VStr "f"); ("arguments", VStr "{}")])]])])]])].

(** [{"choices": [{"text": "x"}]}]. *)
Definition legacy_payload : dict := [("choices", VList [obj [("text", VStr "x")]])].

(** A heap whose only list object, at location 0, is the empty
    message list. *)
Definition empty_log : heap := {[ 0%nat := [] ]}.

(** Stand-ins for the collaborators of [ChatMessagesCreate.execute]. *)
Definition tool_log : list value :=
  [obj [("role", VStr "user"); ("content", VStr "weather?")];
   obj [("role", VStr "assistant");
        ("tool_calls", VList [obj [("id", VStr "c1")]; obj [("call_id", VStr "c2")]])];
   obj [("role", VStr "assistant"); ("tool_calls", VList [obj [("id", VStr "")]])]].

Definition plain_log : list value :=
  [obj [("role", VStr "user"); ("content", VStr "hello")]].

Definition toy_loads (s : string) : result value :=
  if (s =? "tool_log")%string then Ok (VList tool_log)
  else if (s =? "plain_log")%string then Ok (VList plain_log)
  else Raise (ValueError "Expecting value").

Fixpoint toy_dumps (v : value) : string :=
  match v with
  | VNone => "null"
  | VBool true => "true"
  | VBool false => "false"
  | VInt z => pretty z
  | VFloat _ => "<float>"
  | VStr s => String.append "'" (String.append s "'")
  | VList l =>
      String.append "["
        (String.append
           ((fix items (l : list value) : string :=
               match l with
               | [] => ""
               | x :: r =>
                   String.append (toy_dumps x)
                     match r with
                     | [] => ""
                     | _ :: _ => String.append "," (items r)
                     end
               end) l) "]")
  | VDict d =>
      String.append "{"
        (String.append
           ((fix fields (d : dict) : string :=
               match d with
               | [] => ""
               | (k, x) :: r =>
                   String.append k
                     (String.append ":"
                        (String.append (toy_dumps x)
                           match r with
                           | [] => ""
                           | _ :: _ => String.append "," (fields r)
                           end))
               end) d) "}")
  end.

Definition toy_data_uri (image : Tensor) (mime_type : string) : result string :=
  Ok (String.append "data:" (String.append mime_type ";base64,")).

(** Stand-ins for the collaborators of [JSONPathSelect.execute]: the
    only paths are [@] (the document) and a field name. *)
Definition toy_search (path : string) (data : value) : result value :=
  if (path =? "@")%string then Ok data
  else match data with
       | VDict d => Ok (Py.dget d path VNone)
       | _ => Ok VNone
       end.

Definition toy_dumps_indent (v : value) : result string := Ok (toy_dumps v).

Definition toy_doc_loads (s : string) : result value :=
  if (s =? "doc")%string
  then Ok (VDict [("n", VInt 42); ("ok", VBool true); ("name", VStr "wan");
                  ("tags", VList [VStr "a"; VStr "b"])])
  else Raise (ValueError "Expecting value").

(** A stand-in for the float comparison of [_orientation_from_image]:
    the exact rational comparison [diff / min_dim < 1/10]. *)
Definition toy_ratio_below (diff min_dim : Z) : bool := 10 * diff <? min_dim.

End Examples.

(** ** Concrete environments and message logs *)

Module Settings.

Import CustomOpenAIChatCompletion.

Definition environ : gmap string string :=
  {[ "HOME" := "/root"; "COMFYUI_PORT" := "8188"; "EMPTY" := "";
     "OPENAI_API_KEY" := "sk-env" ]}.

(** A [.env] file with one value, one empty value and one bare key. *)
Definition dotenv_file : option (list (string * option string)) :=
  Some [("API_URL", Some "http://localhost"); ("BLANK", Some ""); ("BARE", None)].

Definition environ_get (key dflt : string) : string :=
  default dflt (environ !! key).

Definition hello : value :=
  VDict [("role", VStr "user"); ("content", VList [Examples.obj
           [("type", VStr "text"); ("text", VStr "hello")]])].

(** A parser that reads back what [Examples.toy_dumps] writes for the
    one-message log and the messages used below. *)
Definition loads (s : string) : result value :=
  if (s =? Examples.toy_dumps (VList [hello]))%string then Ok (VList [hello])
  else if (s =? "[]")%string then Ok (VList [])
  else if (s =? "[hello]")%string then Ok (VList [hello])
  else if (s =? "calls")%string then
    Ok (VList [hello;
               VDict (assistant_entry (VStr "")
                        (VList [tool_call (VStr "function") (VStr "c1")
                                  (VStr "f") (VStr "{}");
                                tool_call (VStr "function") (VStr "c2")
                                  (VStr "g") (VStr "{}")]))])
  else if (s =? "broken")%string then Ok (VList [hello; VInt 7])
  else Raise (ValueError "Expecting value").

(** A client that answers every request with one Chat-Completions body. *)
Definition client (api_key base_url : string) (r : request) : result dict :=
  Ok Examples.chat_payload.

Definition one : spec_float := S754_finite false 1 0.

End Settings.

(** ** Expected results *)

Module Expect.

(** The string of a value, or [fallback] when the value is [None] or
    the empty string. *)
Definition text_or (v : value) (fallback : string) : string :=
  match v with
  | VStr s => if (s =? "")%string then fallback else s
  | _ => fallback
  end.

(** The text of a [str], [bool], [int] or [float]: what [str] gives
    when it does not refuse the integer. *)
Definition scalar_text (repr : value → string) (v : value) : string :=
  match v with
  | VStr s => s
  | VBool true => "True"
  | VBool false => "False"
  | VInt z => pretty z
  | _ => repr v
  end.

(** "the empty string when that field is absent or null", read
    literally: any other value of [text] is returned as it is. *)
Definition text_unless_null (c0 : dict) : value :=
  match Py.dict_get "text" c0 with
  | None | Some VNone => VStr ""
  | Some v => v
  end.

(** An assistant message whose [tool_calls] is a non-empty list. *)
Definition has_tool_calls (m : value) : bool :=
  match m with
  | VDict d =>
      Py.eq_str (Py.dget d "role" VNone) "assistant"
      && match Py.dget d "tool_calls" VNone with
         | VList (_ :: _) => true
         | _ => false
         end
  | _ => false
  end.

(** "the id or call_id of the last entry of the first assistant message
    whose tool_calls is a non-empty list", searching backwards and read
    literally: only that first message is asked for an id. *)
Definition first_call_message_id (messages : list value) : option value :=
  match List.find has_tool_calls (rev messages) with
  | Some m => Spec.yields_id m
  | None => None
  end.

End Expect.

(** ** Responses and documents at the edge of the shapes *)

Module Edge.

(** [{"output": [{"type": "output_text", "text": 5}]}]. *)
Definition text_is_number : dict :=
  [("output", VList [VDict [("type", VStr "output_text"); ("text", VInt 5)]])].

(** [{"output": [{"type": "message", "content": null}]}]. *)
Definition content_is_null : dict :=
  [("output", VList [VDict [("type", VStr "message"); ("content", VNone)]])].

(** [{"output": null}]. *)
Definition output_is_null : dict := [("output", VNone)].

(** [{"object": "chat.completion", "choices": [1]}]. *)
Definition chat_number_choice : dict :=
  [("object", VStr "chat.completion"); ("choices", VList [VInt 1])].

(** [{"object": "chat.completion", "choices": [{"message": null}]}]. *)
Definition chat_null_message : dict :=
  [("object", VStr "chat.completion");
   ("choices", VList [VDict [("message", VNone)]])].

(** A tool call whose [function] is null. *)
Definition chat_null_function : dict :=
  [("object", VStr "chat.completion");
   ("choices",
    VList [VDict [("message",
                   VDict [("tool_calls",
                           VList [VDict [("id", VStr "c1");
                                         ("function", VNone)]])])]])].

(** [{"choices": 5}]: of none of the shapes, and not a list either. *)
Definition choices_is_number : dict := [("choices", VInt 5)].

(** [{"choices": [{"text": 0}]}]. *)
Definition legacy_zero_text : dict :=
  [("choices", VList [VDict [("text", VInt 0)]])].

(** A document of two integers of at most 4300 digits whose sum has
    4301, and a query evaluator that knows [sum(@)]. *)
Definition big_doc : value := VList [VInt (10 ^ 4300 - 1); VInt 1].

Definition big_loads (s : string) : result value :=
  if (s =? "big")%string then Ok big_doc else Raise (ValueError "Expecting value").

Fixpoint sum_ints (l : list value) : Z :=
  match l with
  | VInt z :: rest => z + sum_ints rest
  | _ :: rest => sum_ints rest
  | [] => 0
  end.

Definition sum_search (path : string) (data : value) : result value :=
  if (path =? "sum(@)")%string then
    match data with
    | VList l => Ok (VInt (sum_ints l))
    | _ => Ok VNone
    end
  else Ok VNone.

End Edge.

(** ** Properties of the Python primitives *)

Import CustomOpenAIChatCompletion.

Lemma dget_is_Some (d : dict) (k : string) (v : value) :
  Py.dget d k VNone = v → v ≠ VNone → Py.dict_get k d = Some v.
Proof.
  unfold Py.dget. destruct (Py.dict_get k d) as [x|]; congruence.
Qed.

Lemma append_empty_r (s : string) : String.append s "" = s.
Proof.
  induction s as [|c s IH]; [reflexivity|].
  change (String c (String.append s "") = String c s). by rewrite IH.
Qed.

Lemma join_strs (l : list string) : Py.join (map VStr l) = Ok (String.concat "" l).
Proof.
  induction l as [|s l IH]; [reflexivity|].
  cbn [map Py.join]. rewrite IH.
  destruct l as [|s' l]; cbn; [by rewrite append_empty_r | reflexivity].
Qed.

Lemma for_each_app {S} (body : S → value → result S) (xs ys : list value) (s : S) :
  Py.for_each body (xs ++ ys) s = (s' ← Py.for_each body xs s; Py.for_each body ys s').
Proof.
  revert s. induction xs as [|x xs IH]; intros s; cbn; [reflexivity|].
  destruct (body s x) as [s'|e]; cbn; [apply IH | reflexivity].
Qed.

(** ** The extraction loops on well-shaped items *)

Lemma content_step_eq (parts : list value) (c : value) :
  Shape.content_entry_ok c = true →
  content_step parts c = Ok (parts ++ map VStr (Spec.content_texts c)).
Proof.
  destruct c as [| | | | |?|d]; try discriminate.
  cbn [Shape.content_entry_ok]. cbv zeta. intros [Hh Ht]%andb_true_iff.
  unfold content_step, Spec.content_texts, Py.in_strset, Spec.is_text_type.
  cbn [Py.get mbind result_bind]. rewrite Hh. cbn [mbind result_bind].
  destruct (existsb _ _); [|by rewrite app_nil_r].
  destruct (Py.dget d "text" VNone) as [| | | |s| |] eqn:E; try discriminate.
  - by rewrite app_nil_r.
  - cbn [Py.truthy Spec.nonempty_text]. destruct (s =? "")%string; cbn [negb].
    + by rewrite app_nil_r.
    + unfold Py.getitem. by rewrite (dget_is_Some _ _ _ E).
Qed.

Lemma for_each_content_eq (cs parts : list value) :
  forallb Shape.content_entry_ok cs = true →
  Py.for_each content_step cs parts
  = Ok (parts ++ map VStr (flat_map Spec.content_texts cs)).
Proof.
  revert parts. induction cs as [|c cs IH]; intros parts; cbn [forallb].
  - intros _. cbn. by rewrite app_nil_r.
  - intros [Hc Hcs]%andb_true_iff. cbn [Py.for_each flat_map].
    rewrite (content_step_eq _ _ Hc). cbn [mbind result_bind].
    rewrite (IH _ Hcs), map_app. by rewrite <- app_assoc.
Qed.

Lemma text_item_step_eq (parts : list value) (item : value) :
  Shape.text_item_ok item = true →
  text_item_step parts item = Ok (parts ++ map VStr (Spec.item_texts item)).
Proof.
  destruct item as [| | | | |?|d]; try discriminate.
  cbn [Shape.text_item_ok]. cbv zeta.
  intros [[Hh Hc]%andb_true_iff Ht]%andb_true_iff.
  unfold text_item_step, Spec.item_texts, Py.in_strset.
  cbn [Py.get mbind result_bind]. rewrite Hh. cbn [mbind result_bind].
  destruct (existsb _ non_text_types); [by rewrite app_nil_r|].
  destruct (Py.eq_str (Py.dget d "type" VNone) "message") eqn:Em.
  - assert (Py.eq_str (Py.dget d "type" VNone) "output_text" = false) as ->.
    { destruct (Py.dget d "type" VNone); try reflexivity.
      cbn in Em |- *. apply String.eqb_eq in Em. by subst. }
    unfold Py.dget. destruct (Py.dict_get "content" d) as [[| | | | |cs|]|];
      try discriminate; cbn [Py.iter mbind result_bind Spec.entries].
    + by rewrite (for_each_content_eq _ _ Hc).
    + cbn. by rewrite app_nil_r.
  - cbn [mbind result_bind].
    destruct (Py.eq_str (Py.dget d "type" VNone) "output_text"); [|by rewrite app_nil_r].
    destruct (Py.dget d "text" VNone) as [| | | |s| |] eqn:E; try discriminate.
    + by rewrite app_nil_r.
    + cbn [Py.truthy Spec.nonempty_text]. destruct (s =? "")%string; cbn [negb].
      * by rewrite app_nil_r.
      * unfold Py.getitem. by rewrite (dget_is_Some _ _ _ E).
Qed.

Lemma for_each_text_items_eq (items parts : list value) :
  forallb Shape.text_item_ok items = true →
  Py.for_each text_item_step items parts
  = Ok (parts ++ map VStr (flat_map Spec.item_texts items)).
Proof.
  revert parts. induction items as [|it items IH]; intros parts; cbn [forallb].
  - intros _. cbn. by rewrite app_nil_r.
  - intros [Hi His]%andb_true_iff. cbn [Py.for_each flat_map].
    rewrite (text_item_step_eq _ _ Hi). cbn [mbind result_bind].
    rewrite (IH _ His), map_app. by rewrite <- app_assoc.
Qed.

Lemma extract_text_output (data : dict) (items : list value) :
  Py.contains "output_text" data = false →
  Py.dict_get "output" data = Some (VList items) →
  forallb Shape.text_item_ok items = true →
  _extract_text data = Ok (VStr (Spec.output_text items)).
Proof.
  intros Hot Hout Hok. unfold _extract_text, Py.contains at 1, Py.dget.
  rewrite Hout, Hot. cbn [orb Py.iter mbind result_bind].
  rewrite (for_each_text_items_eq _ _ Hok). cbn [mbind result_bind app].
  by rewrite join_strs.
Qed.

Lemma function_get (d : dict) :
  Shape.function_ok d = true →
  Py.dget d "function" (VDict []) = VDict (Spec.function_of d).
Proof.
  unfold Shape.function_ok, Spec.function_of, Py.dget.
  by destruct (Py.dict_get "function" d) as [[| | | | | |f]|].
Qed.

Lemma output_call_step_eq (calls : list value) (item : value) :
  Shape.call_item_ok item = true →
  output_call_step calls item
  = Ok (calls ++ Spec.output_tool_calls Spec.first_truthy [item]).
Proof.
  destruct item as [| | | | |?|d]; try discriminate.
  cbn [Shape.call_item_ok]. cbv zeta. intros [Hh Hf]%andb_true_iff.
  unfold output_call_step, Spec.output_tool_calls, Py.in_strset.
  cbn [Py.get mbind result_bind List.filter Spec.is_call_item].
  rewrite Hh. cbn [mbind result_bind]. fold call_types in Hf.
  destruct (existsb _ call_types); cbn [map]; [|by rewrite app_nil_r].
  rewrite (function_get _ Hf). unfold Spec.output_tool_call, Spec.first_truthy.
  by destruct (Py.truthy (Py.dget d "id" VNone)).
Qed.

Lemma for_each_output_calls_eq (items calls : list value) :
  forallb Shape.call_item_ok items = true →
  Py.for_each output_call_step items calls
  = Ok (calls ++ Spec.output_tool_calls Spec.first_truthy items).
Proof.
  revert calls. induction items as [|it items IH]; intros calls; cbn [forallb].
  - intros _. cbn. by rewrite app_nil_r.
  - intros [Hi His]%andb_true_iff. cbn [Py.for_each].
    rewrite (output_call_step_eq _ _ Hi). cbn [mbind result_bind].
    rewrite (IH _ His), <- app_assoc. do 2 f_equal.
    unfold Spec.output_tool_calls. cbn [List.filter].
    by destruct (Spec.is_call_item it).
Qed.

Lemma extract_tool_calls_output (data : dict) (items : list value) :
  Py.dict_get "output" data = Some (VList items) →
  forallb Shape.call_item_ok items = true →
  _extract_tool_calls data = Ok (Spec.output_tool_calls Spec.first_truthy items).
Proof.
  intros Hout Hok. unfold _extract_tool_calls, Py.contains, Py.getitem.
  rewrite Hout. cbn [Py.iter mbind result_bind].
  by rewrite (for_each_output_calls_eq _ _ Hok).
Qed.

Lemma chat_call_step_eq (calls : list value) (tc : value) :
  Shape.tool_call_ok tc = true →
  chat_call_step calls tc = Ok (calls ++ [Spec.chat_tool_call tc]).
Proof.
  destruct tc as [| | | | |?|d]; try discriminate. cbn [Shape.tool_call_ok].
  intros Hf. unfold chat_call_step. cbn [Py.get mbind result_bind].
  by rewrite (function_get _ Hf).
Qed.

Lemma for_each_chat_calls_eq (tcs calls : list value) :
  forallb Shape.tool_call_ok tcs = true →
  Py.for_each chat_call_step tcs calls = Ok (calls ++ map Spec.chat_tool_call tcs).
Proof.
  revert calls. induction tcs as [|tc tcs IH]; intros calls; cbn [forallb].
  - intros _. cbn. by rewrite app_nil_r.
  - intros [Hi His]%andb_true_iff. cbn [Py.for_each].
    rewrite (chat_call_step_eq _ _ Hi). cbn [mbind result_bind].
    by rewrite (IH _ His), <- app_assoc.
Qed.

Lemma extract_tool_calls_chat (data : dict) :
  Py.contains "output" data = false →
  Py.eq_str (Py.dget data "object" VNone) "chat.completion" = true →
  Shape.choices_ok data = true →
  _extract_tool_calls data
  = Ok (map Spec.chat_tool_call
          (Spec.first_choice_tool_calls (Py.dget data "choices" VNone))).
Proof.
  intros Hout Hobj Hok. unfold _extract_tool_calls. rewrite Hout, Hobj.
  unfold Shape.choices_ok in Hok. cbv zeta in Hok |- *. unfold Py.or_.
  destruct (Py.truthy (Py.dget data "choices" VNone)) eqn:Ht.
  - rewrite Ht. cbn [negb].
    destruct (Py.dget data "choices" VNone) as [| | | | |cs|]; try discriminate.
    destruct cs as [|c0 cs]; [discriminate|]. rename Hok into Hc.
    destruct c0 as [| | | | |?|c0]; try discriminate.
    cbn [Py.getitem0 Py.get mbind result_bind Spec.first_choice_tool_calls].
    cbn [Shape.choice_ok] in Hc.
    destruct (Py.dict_get "message" c0) as [[| | | | | |m]|] eqn:Em; try discriminate.
    + assert (Py.dget c0 "message" (VDict []) = VDict m) as ->
        by (unfold Py.dget; by rewrite Em).
      cbn [Py.get mbind result_bind]. unfold Shape.message_ok in Hc.
      cbv zeta in Hc. destruct (Py.truthy (Py.dget m "tool_calls" VNone)) eqn:Hm.
      * destruct (Py.dget m "tool_calls" VNone) as [| | | | |l|]; try discriminate.
        cbn [Py.iter mbind result_bind Spec.entries].
        by rewrite (for_each_chat_calls_eq _ _ Hc).
      * cbn [Py.iter mbind result_bind Py.for_each].
        destruct (Py.dget m "tool_calls" VNone) as [| | | | |l|]; try reflexivity.
        by destruct l.
    + assert (Py.dget c0 "message" (VDict []) = VDict []) as ->
        by (unfold Py.dget; by rewrite Em).
      reflexivity.
  - cbn. destruct (Py.dget data "choices" VNone) as [| | | | |l|]; try reflexivity.
    by destruct l.
Qed.

(** ** The response normaliser *)

Lemma contains_get (k : string) (d : dict) :
  Py.contains k d = true → ∃ v, Py.dict_get k d = Some v.
Proof. unfold Py.contains. destruct (Py.dict_get k d); [eauto | discriminate]. Qed.

Lemma contains_false (k : string) (d : dict) :
  Py.contains k d = false → Py.dict_get k d = None.
Proof. unfold Py.contains. by destruct (Py.dict_get k d). Qed.

(** Without [output] and [output_text], the two [choices] branches of
    [_extract_text] return on well-shaped choices. *)
Lemma extract_text_choices_total (data : dict) :
  Py.contains "output" data = false →
  Py.contains "output_text" data = false →
  Shape.choices_ok data = true →
  raises (_extract_text data) = false.
Proof.
  intros Hout Hot Hok. unfold _extract_text. rewrite Hout, Hot. cbn [orb].
  unfold Shape.choices_ok in Hok. cbv zeta in Hok |- *. unfold Py.or_.
  destruct (Py.truthy (Py.dget data "choices" VNone)) eqn:Ht.
  - destruct (Py.dget data "choices" VNone) as [| | | | |cs|]; try discriminate.
    destruct cs as [|c0 cs]; [discriminate|]. rename Hok into Hc.
    destruct c0 as [| | | | |?|c0]; try discriminate. cbn [Shape.choice_ok] in Hc.
    rewrite Ht. cbn [negb andb Py.is_list Py.getitem0 Py.get mbind result_bind].
    destruct (Py.eq_str _ "chat.completion"); [|reflexivity].
    unfold Py.dget.
    by destruct (Py.dict_get "message" c0) as [[| | | | | |m]|].
  - cbn [negb andb]. by destruct (Py.eq_str _ "chat.completion").
Qed.

(** C1 (amended). On every response whose [output], when present, is a
    list of objects whose [type] is not a container (the [content] of a
    [message] item being absent or a list of such objects, the [text]
    that is read a string, null or absent, and the [function] of a call
    item an object or absent), and whose [choices] is empty, null,
    absent or a list whose first element is an object with an object
    [message], neither [_extract_text] nor [_extract_tool_calls]
    raises; and every response of none of the three shapes, whatever
    else it holds, gives the empty string and the empty list through
    the final fallthrough. *)
Theorem extract_total_on_shaped_response (data : dict) :
  (Shape.response_ok data = true →
   raises (_extract_text data) = false
   ∧ raises (_extract_tool_calls data) = false)
  ∧ (Shape.unrecognised data = true →
     _extract_text data = Ok (VStr "") ∧ _extract_tool_calls data = Ok []).
Proof.
  split.
  - unfold Shape.response_ok. intros [Hout Hch]%andb_true_iff. split.
    + destruct (Py.contains "output_text" data) eqn:Hot.
      * unfold _extract_text. rewrite Hot, orb_true_r. unfold Py.getitem.
        apply contains_get in Hot as [v ->]. reflexivity.
      * destruct (Py.dict_get "output" data) as [[| | | | |items|]|] eqn:Eo;
          try discriminate.
        -- apply andb_true_iff in Hout as [Ht _].
           by rewrite (extract_text_output _ _ Hot Eo Ht).
        -- apply extract_text_choices_total; [|done..].
           unfold Py.contains. by rewrite Eo.
    + destruct (Py.dict_get "output" data) as [[| | | | |items|]|] eqn:Eo;
        try discriminate.
      * apply andb_true_iff in Hout as [_ Hc].
        by rewrite (extract_tool_calls_output _ _ Eo Hc).
      * assert (Py.contains "output" data = false) as Hno
          by (unfold Py.contains; by rewrite Eo).
        destruct (Py.eq_str (Py.dget data "object" VNone) "chat.completion") eqn:Eobj.
        -- by rewrite (extract_tool_calls_chat _ Hno Eobj Hch).
        -- unfold _extract_tool_calls. by rewrite Hno, Eobj.
  - unfold Shape.unrecognised.
    intros [[[Ho%negb_true_iff Hot%negb_true_iff]%andb_true_iff
             Hobj%negb_true_iff]%andb_true_iff Hc%negb_true_iff]%andb_true_iff.
    unfold _extract_text, _extract_tool_calls.
    by rewrite Ho, Hot, Hobj, Hc.
Qed.

Lemma extract_total_on_shaped_response_witness :
  (Shape.response_ok Examples.responses_payload = true
   ∧ raises (_extract_text Examples.responses_payload) = false
   ∧ raises (_extract_tool_calls Examples.responses_payload) = false)
  ∧ (Shape.unrecognised Examples.shapeless = true
     ∧ _extract_text Examples.shapeless = Ok (VStr "")
     ∧ _extract_tool_calls Examples.shapeless = Ok [])
  ∧ (Shape.response_ok Edge.choices_is_number = false
     ∧ Shape.unrecognised Edge.choices_is_number = true
     ∧ _extract_text Edge.choices_is_number = Ok (VStr "")
     ∧ _extract_tool_calls Edge.choices_is_number = Ok []).
Proof.
  split; [|split].
  - split; [reflexivity|].
    exact (proj1 (extract_total_on_shaped_response Examples.responses_payload)
             eq_refl).
  - split; [reflexivity|].
    exact (proj2 (extract_total_on_shaped_response Examples.shapeless) eq_refl).
  - split; [reflexivity|]. split; [reflexivity|].
    exact (proj2 (extract_total_on_shaped_response Edge.choices_is_number) eq_refl).
Defined.

(** C1 as stated fails: an element of [output] that is not an object
    makes both extractors raise [AttributeError], and so does an element
    of [choices] for [_extract_text]. *)
Lemma extract_raises_on_non_object_element :
  _extract_text Examples.number_in_output = Raise AttributeError
  ∧ _extract_tool_calls Examples.number_in_output = Raise AttributeError
  ∧ _extract_text Examples.number_in_choices = Raise AttributeError.
Proof. repeat split; reflexivity. Qed.

(** An item whose [type] is in the non-text skip set contributes no
    text; [reasoning] is one of them. *)
Lemma skipped_item_has_no_text (d : dict) :
  existsb (Py.eq_str (Py.dget d "type" VNone)) non_text_types = true →
  Spec.item_texts (VDict d) = [].
Proof. intros H. cbn [Spec.item_texts]. by rewrite H. Qed.

(** A [reasoning] item is neither text nor a tool call. *)
Lemma reasoning_item_contributes_nothing (d : dict) :
  Py.dget d "type" VNone = VStr "reasoning" →
  Spec.item_texts (VDict d) = [] ∧ Spec.is_call_item (VDict d) = false.
Proof. intros H. cbn [Spec.item_texts Spec.is_call_item]. by rewrite H. Qed.

(** Any payload whose only output item is a [message] holding the two
    [output_text] entries ["a"] and ["b"] yields ["ab"], whatever else
    the payload and the item carry. *)
Lemma two_entries_yield_ab (data extra : dict) :
  Py.contains "output_text" data = false →
  Py.dict_get "output" data
  = Some (VList
      [VDict (("type", VStr "message")
              :: ("content",
                  VList [VDict [("type", VStr "output_text"); ("text", VStr "a")];
                         VDict [("type", VStr "output_text"); ("text", VStr "b")]])
              :: extra)]) →
  _extract_text data = Ok (VStr "ab").
Proof.
  intros Hot Hout. by rewrite (extract_text_output _ _ Hot Hout eq_refl).
Qed.

(** C4 (amended). Without [output_text] and with an [output] that is a
    list of objects whose [type] is not a container (the [content] of a
    [message] item being absent or a list of such objects, and the
    [text] that is read a string, null or absent), the text is the
    concatenation, in order and with no separator, of the non-empty
    [text]s of the [output_text]/[input_text] entries of [message]
    items and of [output_text] items; items of a skipped type
    contribute nothing. *)
Theorem extract_text_concatenates_output (data : dict) (items : list value) :
  Py.contains "output_text" data = false →
  Py.dict_get "output" data = Some (VList items) →
  forallb Shape.text_item_ok items = true →
  _extract_text data = Ok (VStr (String.concat "" (flat_map Spec.item_texts items))).
Proof. apply extract_text_output. Qed.

Lemma extract_text_concatenates_output_witness :
  Py.contains "output_text" Examples.responses_payload = false
  ∧ _extract_text Examples.responses_payload = Ok (VStr "ab").
Proof.
  split; [reflexivity|].
  exact (extract_text_concatenates_output Examples.responses_payload _
           eq_refl eq_refl eq_refl).
Defined.

(** C4 as stated fails: with [output] present and [output_text] absent,
    a [text] that is a number, a [content] that is null, an element
    that is not an object and an [output] that is null all make
    [_extract_text] raise instead of returning a concatenation. *)
Lemma extract_text_raises_on_untyped_output :
  (Py.contains "output_text" Edge.text_is_number = false
   ∧ Py.contains "output" Edge.text_is_number = true
   ∧ _extract_text Edge.text_is_number = Raise TypeError)
  ∧ (Py.contains "output_text" Edge.content_is_null = false
     ∧ Py.contains "output" Edge.content_is_null = true
     ∧ _extract_text Edge.content_is_null = Raise TypeError)
  ∧ (Py.contains "output_text" Examples.number_in_output = false
     ∧ Py.contains "output" Examples.number_in_output = true
     ∧ _extract_text Examples.number_in_output = Raise AttributeError)
  ∧ (Py.contains "output_text" Edge.output_is_null = false
     ∧ Py.contains "output" Edge.output_is_null = true
     ∧ _extract_text Edge.output_is_null = Raise TypeError).
Proof. repeat split; reflexivity. Qed.

(** C3 (amended). With [output] a list of objects, the tool calls are
    one ToolCall per item of type [function_call], [tool_call] or
    [mcp_call], in source order; its [id] is the item's [id] when that
    is truthy and the item's [call_id] (null when absent) otherwise; the
    result is returned whatever [object] and [choices] hold. *)
Theorem extract_tool_calls_from_output (data : dict) (items : list value) :
  Py.dict_get "output" data = Some (VList items) →
  forallb Shape.call_item_ok items = true →
  _extract_tool_calls data
  = Ok (map (Spec.output_tool_call Spec.first_truthy)
          (List.filter Spec.is_call_item items)).
Proof. apply extract_tool_calls_output. Qed.

Lemma extract_tool_calls_from_output_witness :
  _extract_tool_calls Examples.responses_payload
  = Ok [tool_call (VStr "function_call") (VStr "c7") (VStr "f") (VStr "{}")]
  ∧ _extract_tool_calls Examples.empty_output_chat = Ok [].
Proof.
  split.
  - exact (extract_tool_calls_from_output Examples.responses_payload _ eq_refl eq_refl).
  - exact (extract_tool_calls_from_output Examples.empty_output_chat _ eq_refl eq_refl).
Defined.

(** C3 as stated fails: an [id] that is the empty string is not null,
    yet [call_id] wins. *)
Lemma empty_id_gives_way_to_call_id :
  _extract_tool_calls Examples.empty_id_response
  = Ok [tool_call (VStr "function_call") (VStr "c9") (VStr "") (VStr "")]
  ∧ Spec.output_tool_calls Spec.first_non_null Examples.empty_id_items
    = [tool_call (VStr "function_call") (VStr "") (VStr "") (VStr "")]
  ∧ _extract_tool_calls Examples.empty_id_response
    ≠ Ok (Spec.output_tool_calls Spec.first_non_null Examples.empty_id_items).
Proof. repeat split; [reflexivity..|discriminate]. Qed.

(** C5 (amended). Without [output] and with
    [object == "chat.completion"], when [choices] is empty, null or
    absent, or is a list whose first element is an object with a
    [message] that is absent or an object, whose [tool_calls] is in
    turn absent, null, empty or a list of objects with a [function]
    that is absent or an object: the tool calls are the entries of
    [choices[0].message.tool_calls], in order, each with [type]
    defaulting to ["function"], [id] copied and
    [function.name]/[function.arguments] defaulting to the empty
    string; they are empty when [choices] is. *)
Theorem extract_tool_calls_from_chat (data : dict) :
  Py.contains "output" data = false →
  Py.eq_str (Py.dget data "object" VNone) "chat.completion" = true →
  Shape.choices_ok data = true →
  _extract_tool_calls data
  = Ok (map Spec.chat_tool_call
          (Spec.first_choice_tool_calls (Py.dget data "choices" VNone)))
  ∧ (Py.truthy (Py.dget data "choices" VNone) = false →
     _extract_tool_calls data = Ok []).
Proof.
  intros Hout Hobj Hok. rewrite (extract_tool_calls_chat _ Hout Hobj Hok).
  split; [reflexivity|]. intros Hf.
  destruct (Py.dget data "choices" VNone) as [| | | | |l|]; try reflexivity.
  destruct l; [reflexivity | discriminate].
Qed.

Lemma extract_tool_calls_from_chat_witness :
  _extract_tool_calls Examples.chat_payload
  = Ok [VDict [("type", VStr "function"); ("id", VStr "c1");
               ("function", VDict [("name", VStr "f"); ("arguments", VStr "{}")])]].
Proof.
  exact (proj1 (extract_tool_calls_from_chat Examples.chat_payload
                  eq_refl eq_refl eq_refl)).
Defined.

(** C5 as stated fails: a first choice that is not an object, a
    [message] that is null and a [function] that is null make
    [_extract_tool_calls] raise [AttributeError] instead of mapping the
    entries with defaults. *)
Lemma extract_tool_calls_raises_on_untyped_chat :
  (Py.contains "output" Edge.chat_number_choice = false
   ∧ _extract_tool_calls Edge.chat_number_choice = Raise AttributeError)
  ∧ (Py.contains "output" Edge.chat_null_message = false
     ∧ _extract_tool_calls Edge.chat_null_message = Raise AttributeError)
  ∧ (Py.contains "output" Edge.chat_null_function = false
     ∧ _extract_tool_calls Edge.chat_null_function = Raise AttributeError).
Proof. repeat split; reflexivity. Qed.

(** C8 (amended). In the legacy shape (no [output], no [output_text],
    [object] not ["chat.completion"], [choices] a non-empty list) there
    are no tool calls, and when the first choice is an object the text
    is its [text] when that is truthy and the empty string otherwise
    (absent, null, empty, zero or false). *)
Theorem extract_legacy_completion (data : dict) (c0 : value) (rest : list value) :
  Py.contains "output" data = false →
  Py.contains "output_text" data = false →
  Py.eq_str (Py.dget data "object" VNone) "chat.completion" = false →
  Py.dict_get "choices" data = Some (VList (c0 :: rest)) →
  _extract_tool_calls data = Ok []
  ∧ ∀ d : dict,
      c0 = VDict d →
      _extract_text data
      = Ok (match Py.dict_get "text" d with
            | Some text => if Py.truthy text then text else VStr ""
            | None => VStr ""
            end).
Proof.
  intros Hout Hot Hobj Hch.
  unfold _extract_text, _extract_tool_calls. rewrite Hout, Hot, Hobj.
  split; [reflexivity|]. intros d ->.
  cbv zeta. unfold Py.dget. rewrite Hch.
  cbn [orb Py.truthy Py.is_list andb Py.getitem0 Py.get mbind result_bind].
  unfold Py.dget, Py.or_. by destruct (Py.dict_get "text" d).
Qed.

Lemma extract_legacy_completion_witness :
  (_extract_tool_calls Examples.legacy_payload = Ok []
   ∧ _extract_text Examples.legacy_payload = Ok (VStr "x"))
  ∧ _extract_text Edge.legacy_zero_text = Ok (VStr "").
Proof.
  split.
  - destruct (extract_legacy_completion Examples.legacy_payload _ _
                eq_refl eq_refl eq_refl eq_refl) as [Hcalls Htext].
    exact (conj Hcalls (Htext _ eq_refl)).
  - exact (proj2 (extract_legacy_completion Edge.legacy_zero_text _ _
                    eq_refl eq_refl eq_refl eq_refl) _ eq_refl).
Defined.

(** C8 as stated fails: a first choice that is not an object makes
    [_extract_text] raise [AttributeError], and a [text] of zero, which
    is neither absent nor null, gives the empty string, not the
    [text]. *)
Lemma extract_legacy_text_untyped :
  (Py.contains "output" Examples.number_in_choices = false
   ∧ Py.contains "output_text" Examples.number_in_choices = false
   ∧ Py.eq_str (Py.dget Examples.number_in_choices "object" VNone)
       "chat.completion" = false
   ∧ Py.dict_get "choices" Examples.number_in_choices = Some (VList [VInt 1])
   ∧ _extract_text Examples.number_in_choices = Raise AttributeError)
  ∧ (_extract_text Edge.legacy_zero_text = Ok (VStr "")
     ∧ Expect.text_unless_null [("text", VInt 0)] = VInt 0
     ∧ _extract_text Edge.legacy_zero_text
       ≠ Ok (Expect.text_unless_null [("text", VInt 0)])).
Proof. repeat split; [reflexivity..|discriminate]. Qed.

(** ** The appended assistant turn *)

Lemma alloc_fresh (h : heap) (l : list value) (r : loc) (h' : heap) :
  alloc l h = Ok (r, h') → h !! r = None ∧ h' = <[r := l]> h.
Proof.
  unfold alloc. intros [= <- <-]. split; [|reflexivity].
  apply not_elem_of_dom, is_fresh.
Qed.

Lemma assistant_entry_keys (response_text tool_calls : value) (k : string) :
  Py.contains k (assistant_entry response_text tool_calls) = true →
  k = "role" ∨ k = "content" ∨ k = "tool_calls".
Proof.
  unfold assistant_entry, Py.contains.
  destruct (Py.truthy response_text), (Py.truthy tool_calls); cbn [app Py.dict_get];
    repeat match goal with
           | |- context [(?a =? k)%string] =>
               destruct (String.eqb_spec a k) as [<-|_]; [by auto|]
           end; discriminate.
Qed.

(** C6. The appended assistant turn is a new list object holding the
    input messages followed by one entry [{role: "assistant"}]; the
    entry has [content], shaped [[{type: "text", text}]], exactly when
    the text is non-empty and [tool_calls] exactly when the tool-call
    list is non-empty, and no other key; the input list object, like
    every other object of the heap, is left as it was. *)
Theorem append_assistant_turn_spec (h : heap) (messages : loc) (ms : list value)
    (text : string) (calls : list value) :
  h !! messages = Some ms →
  ∃ (out : loc) (h' : heap) (entry : dict),
    append_assistant_turn messages (VStr text) (VList calls) h = Ok (out, h')
    ∧ h' !! out = Some (ms ++ [VDict entry])
    ∧ out ≠ messages
    ∧ h' !! messages = Some ms
    ∧ (∀ r : loc, r ≠ out → h' !! r = h !! r)
    ∧ Py.dict_get "role" entry = Some (VStr "assistant")
    ∧ Py.dict_get "content" entry
      = (if (text =? "")%string then None
         else Some (VList [VDict [("type", VStr "text"); ("text", VStr text)]]))
    ∧ Py.dict_get "tool_calls" entry
      = match calls with
        | [] => None
        | _ :: _ => Some (VList calls)
        end
    ∧ (∀ k : string, Py.contains k entry = true →
         k = "role" ∨ k = "content" ∨ k = "tool_calls").
Proof.
  intros Hm.
  destruct (alloc ms h) as [[out h1]|] eqn:Ea; [|discriminate].
  apply alloc_fresh in Ea as Hf. destruct Hf as [Hnone ->].
  assert (out ≠ messages) as Hne by congruence.
  exists out, (<[out := ms ++ [VDict (assistant_entry (VStr text) (VList calls))]]>
                 (<[out := ms]> h)), (assistant_entry (VStr text) (VList calls)).
  split; [|split; [|split; [|split; [|split; [|split; [|split; [|split]]]]]]].
  - unfold append_assistant_turn, list_copy, bind, read. rewrite Hm, Ea.
    unfold list_append. by rewrite lookup_insert_eq.
  - by rewrite lookup_insert_eq.
  - exact Hne.
  - by rewrite !lookup_insert_ne.
  - intros r Hr. by rewrite !lookup_insert_ne.
  - reflexivity.
  - unfold assistant_entry. cbn [Py.truthy].
    by destruct (text =? "")%string, calls.
  - unfold assistant_entry. cbn [Py.truthy].
    by destruct (text =? "")%string, calls.
  - apply assistant_entry_keys.
Qed.

Lemma append_assistant_turn_spec_witness :
  Examples.empty_log !! 0%nat = Some []
  ∧ ∃ (out : loc) (h' : heap) (entry : dict),
      append_assistant_turn 0 (VStr "hi") (VList []) Examples.empty_log = Ok (out, h')
      ∧ h' !! out = Some [VDict entry]
      ∧ h' !! 0%nat = Some []
      ∧ Py.dict_get "content" entry
        = Some (VList [VDict [("type", VStr "text"); ("text", VStr "hi")]])
      ∧ Py.dict_get "tool_calls" entry = None.
Proof.
  split; [reflexivity|].
  destruct (append_assistant_turn_spec Examples.empty_log 0 [] "hi" [] eq_refl)
    as (out & h' & entry & Hrun & Hout & _ & Hin & _ & _ & Hc & Ht & _).
  exists out, h', entry. auto.
Defined.

(** The specification's example: appending to the empty list with text
    ["hi"] and no tool calls. *)
Example append_to_empty_log :
  match append_assistant_turn 0 (VStr "hi") (VList []) Examples.empty_log with
  | Ok (out, h') =>
      h' !! out
      = Some [VDict [("role", VStr "assistant");
                     ("content", VList [VDict [("type", VStr "text");
                                               ("text", VStr "hi")]])]]
      ∧ h' !! 0%nat = Some []
  | Raise _ => False
  end.
Proof. vm_compute. split; reflexivity. Qed.

(** ** Building a [tool] message *)

Lemma yields_id_truthy (m i : value) : Spec.yields_id m = Some i → Py.truthy i = true.
Proof.
  unfold Spec.yields_id. destruct m as [| | | | | |d]; try discriminate.
  destruct (Py.eq_str _ "assistant"); [|discriminate].
  destruct (Py.dget d "tool_calls" VNone) as [| | | | |[|c cs]|]; try discriminate.
  destruct (Py.last_item c (c :: cs)) as [| | | | | |lc]; try discriminate.
  cbv zeta. destruct (Py.truthy (Py.dget lc "id" VNone)) eqn:Ei.
  - by intros [= <-].
  - destruct (Py.truthy (Py.dget lc "call_id" VNone)) eqn:Ej; [|discriminate].
    by intros [= <-].
Qed.

Lemma first_yield_truthy (prevs : list value) (i : value) :
  Spec.first_yield prevs = Some i → Py.truthy i = true.
Proof.
  induction prevs as [|m prevs IH]; [discriminate|]. cbn [Spec.first_yield].
  destruct (Spec.yields_id m) eqn:E; [|exact IH].
  intros [= <-]. by eapply yields_id_truthy.
Qed.

(** The loop leaves [tc_id] at the id of the first message that yields
    one, and at the empty string when none does. *)
Lemma find_tool_call_id_eq (prevs : list value) :
  forallb Py.is_dict prevs = true →
  ChatMessagesCreate.find_tool_call_id prevs (VStr "")
  = Ok (default (VStr "") (Spec.first_yield prevs)).
Proof.
  induction prevs as [|m prevs IH]; [reflexivity|]. cbn [forallb].
  intros [Hm Hp]%andb_true_iff. specialize (IH Hp).
  destruct m as [| | | | | |d]; try discriminate.
  cbn [ChatMessagesCreate.find_tool_call_id Spec.first_yield Spec.yields_id
       Py.get mbind result_bind].
  destruct (Py.eq_str (Py.dget d "role" VNone) "assistant"); cbn [negb]; [|exact IH].
  destruct (Py.dget d "tool_calls" VNone) as [| | | | |[|c cs]|]; try exact IH.
  destruct (Py.last_item c (c :: cs)) as [| | | | | |lc]; try exact IH.
  cbv zeta. unfold Py.or_.
  destruct (Py.truthy (Py.dget lc "id" VNone)) eqn:Ei.
  - rewrite ?Ei. reflexivity.
  - destruct (Py.truthy (Py.dget lc "call_id" VNone)) eqn:Ej.
    + rewrite ?Ej. reflexivity.
    + cbn [Py.truthy String.eqb negb]. exact IH.
Qed.

Lemma forallb_rev {A} (f : A → bool) (l : list A) :
  forallb f l = true → forallb f (rev l) = true.
Proof.
  rewrite !forallb_forall. intros H x Hx. apply H. by apply in_rev.
Qed.

(** C7 (amended). With [role="tool"], on a [messages_json] that
    decodes to a list of objects and with an image that is absent or
    converts, [ChatMessagesCreate.execute] raises the validation error
    ([ValueError]) exactly when no assistant message yields a tool-call
    id, where a message yields an id when its [tool_calls] is a
    non-empty list whose last entry is an object with a truthy [id] or
    else a truthy [call_id]; otherwise the call returns the messages
    followed by a message whose [tool_call_id] is the id of the first
    message that yields one, searching backwards and going on past
    assistant messages that yield none. *)
Theorem tool_message_needs_upstream_call
    (json_loads : string → result value) (json_dumps : value → string)
    (tensor_to_data_uri : Tensor → string → result string)
    (messages_json content : string) (image : option Tensor) (msgs : list value) :
  messages_json ≠ "" →
  json_loads messages_json = Ok (VList msgs) →
  forallb Py.is_dict msgs = true →
  (∀ img, image = Some img → raises (tensor_to_data_uri img "image/png") = false) →
  let run := ChatMessagesCreate.execute json_loads json_dumps tensor_to_data_uri
               messages_json "tool" content image in
  (Spec.found_tool_call_id msgs = None →
   run = Raise (ValueError
                  "role=tool requires an assistant tool_call upstream; none found."))
  ∧ (∀ id : value, Spec.found_tool_call_id msgs = Some id →
       ∃ message : dict,
         run = Ok (mkNodeOutput [VStr (json_dumps (VList (msgs ++ [VDict message])))])
         ∧ Py.dict_get "role" message = Some (VStr "tool")
         ∧ Py.dict_get "tool_call_id" message = Some id)
  ∧ (raises run = true ↔ Spec.found_tool_call_id msgs = None).
Proof.
  intros Hne Hload Hdict Himg run.
  pose proof (find_tool_call_id_eq _ (forallb_rev _ _ Hdict)) as Hfind.
  fold (Spec.found_tool_call_id msgs) in Hfind.
  assert (∃ mc : value,
    run = match Spec.found_tool_call_id msgs with
          | None =>
              Raise (ValueError
                "role=tool requires an assistant tool_call upstream; none found.")
          | Some id =>
              Ok (mkNodeOutput
                    [VStr (json_dumps
                       (VList (msgs ++ [VDict [("role", VStr "tool"); ("content", mc);
                                               ("tool_call_id", id)]])))])
          end) as [mc Hrun].
  { subst run. unfold ChatMessagesCreate.execute.
    apply String.eqb_neq in Hne. rewrite Hne, Hload.
    cbn [mbind result_bind Py.iter].
    assert (∃ parts, (match image with
                      | Some img =>
                          data_uri ← tensor_to_data_uri img "image/png";
                          mret ((if (content =? "")%string then []
                                 else [ChatMessagesCreate.text_part content])
                                ++ [ChatMessagesCreate.image_part data_uri])
                      | None =>
                          mret (if (content =? "")%string then []
                                else [ChatMessagesCreate.text_part content])
                      end) = Ok parts) as [parts ->].
    { destruct image as [img|]; [|by eexists].
      specialize (Himg img eq_refl).
      destruct (tensor_to_data_uri img "image/png"); [by eexists | discriminate]. }
    cbn [mbind result_bind]. rewrite String.eqb_refl, Hfind. cbn [mbind result_bind].
    destruct (Spec.found_tool_call_id msgs) as [i|] eqn:Ef;
      cbn [default from_option id mbind result_bind].
    - rewrite (first_yield_truthy _ _ Ef).
      cbn [negb mbind result_bind mret result_ret]. eexists. reflexivity.
    - exists VNone. reflexivity. }
  rewrite Hrun. destruct (Spec.found_tool_call_id msgs) as [id|].
  - split; [discriminate|]. split; [|split; discriminate].
    intros ? [= <-]. eexists. split; [reflexivity|]. split; reflexivity.
  - split; [reflexivity|]. split; [discriminate|]. split; reflexivity.
Qed.

Lemma tool_message_needs_upstream_call_witness :
  ChatMessagesCreate.execute Examples.toy_loads Examples.toy_dumps
    Examples.toy_data_uri "plain_log" "tool" "42" None
  = Raise (ValueError "role=tool requires an assistant tool_call upstream; none found.")
  ∧ ∃ message : dict,
      ChatMessagesCreate.execute Examples.toy_loads Examples.toy_dumps
        Examples.toy_data_uri "tool_log" "tool" "42" (Some (mkTensor [1; 8; 8; 3]))
      = Ok (mkNodeOutput
              [VStr (Examples.toy_dumps (VList (Examples.tool_log ++ [VDict message])))])
      ∧ Py.dict_get "role" message = Some (VStr "tool")
      ∧ Py.dict_get "tool_call_id" message = Some (VStr "c2").
Proof.
  split.
  - refine (proj1 (tool_message_needs_upstream_call Examples.toy_loads
              Examples.toy_dumps Examples.toy_data_uri "plain_log" "42" None
              Examples.plain_log _ eq_refl eq_refl _) eq_refl);
      [discriminate | intros; reflexivity].
  - refine (proj1 (proj2 (tool_message_needs_upstream_call Examples.toy_loads
              Examples.toy_dumps Examples.toy_data_uri "tool_log" "42"
              (Some (mkTensor [1; 8; 8; 3])) Examples.tool_log _ eq_refl eq_refl _))
              (VStr "c2") eq_refl);
      [discriminate | intros; reflexivity].
Defined.

(** C7 as stated fails.  In [Examples.tool_log] the first assistant
    message met when searching backwards has a non-empty [tool_calls]
    whose last entry has the empty [id]: the rule of the claim finds no
    id there and promises the error, yet the search goes on and the
    call succeeds with the [call_id] of the message before.  And a
    message that is not an object makes the call raise
    [AttributeError], not the validation error, although no assistant
    message yields an id. *)
Lemma tool_search_goes_past_call_without_id :
  (Examples.toy_loads "tool_log" = Ok (VList Examples.tool_log)
   ∧ Expect.first_call_message_id Examples.tool_log = None
   ∧ ChatMessagesCreate.execute Examples.toy_loads Examples.toy_dumps
       Examples.toy_data_uri "tool_log" "tool" "42" None
     = Ok (mkNodeOutput
             [VStr (Examples.toy_dumps
                (VList (Examples.tool_log
                        ++ [VDict [("role", VStr "tool");
                                   ("content",
                                    VList [ChatMessagesCreate.text_part "42"]);
                                   ("tool_call_id", VStr "c2")]])))]))
  ∧ (Settings.loads "broken" = Ok (VList [Settings.hello; VInt 7])
     ∧ Spec.found_tool_call_id [Settings.hello; VInt 7] = None
     ∧ ChatMessagesCreate.execute Settings.loads Examples.toy_dumps
         Examples.toy_data_uri "broken" "tool" "42" None
       = Raise AttributeError).
Proof. repeat split; reflexivity. Qed.

(** ** JSON path selection *)

(** A [return] in the [finally] clause wins over the body. *)
Lemma finally_return_discards {A} (body : result A) (r : A) :
  Py.finally_return body r = Ok r.
Proof. by destruct body. Qed.

(** C2. When the document parses and the query yields a value that is
    not a [str], [int], [float] or [bool], [JSONPathSelect.execute]
    returns the empty string: the serialization computed in the [try]
    block is discarded by the [return] of its [finally] clause. *)
Theorem select_discards_non_scalar
    (json_loads : string → result value)
    (jmespath_search : string → value → result value)
    (json_dumps : value → result string) (repr : value → string)
    (json_text path : string) (data current : value) :
  json_loads json_text = Ok data →
  jmespath_search path data = Ok current →
  Py.is_scalar current = false →
  JSONPathSelect.execute json_loads jmespath_search json_dumps repr json_text path
  = Ok (mkNodeOutput [VStr ""]).
Proof.
  intros Hload Hsearch Hscalar. unfold JSONPathSelect.execute.
  destruct ((json_text =? "")%string || (path =? "")%string); [reflexivity|].
  rewrite Hload. cbn [mbind result_bind]. rewrite Hsearch, Hscalar.
  apply finally_return_discards.
Qed.

Lemma select_discards_non_scalar_witness :
  Examples.toy_dumps_indent (VList [VStr "a"; VStr "b"]) = Ok "['a','b']"
  ∧ JSONPathSelect.execute Examples.toy_doc_loads Examples.toy_search
      Examples.toy_dumps_indent Examples.toy_dumps "doc" "tags"
    = Ok (mkNodeOutput [VStr ""]).
Proof.
  split; [reflexivity|].
  exact (select_discards_non_scalar Examples.toy_doc_loads Examples.toy_search
           Examples.toy_dumps_indent Examples.toy_dumps "doc" "tags" _
           (VList [VStr "a"; VStr "b"]) eq_refl eq_refl eq_refl).
Defined.

Lemma exceeds_str_digits_spec (z : Z) :
  Py.exceeds_str_digits z = true ↔ 10 ^ Py.max_str_digits ≤ Z.abs z.
Proof. apply Z.leb_le. Qed.

(** [str] of a scalar that is not an integer of more than 4300 digits. *)
Lemma str_scalar (repr : value → string) (v : value) :
  (∀ z, v = VInt z → Z.abs z < 10 ^ Py.max_str_digits) →
  Py.str repr v = Ok (Expect.scalar_text repr v).
Proof.
  intros Hz. destruct v as [| [|] |z| | | |]; try reflexivity.
  unfold Py.str. destruct (Py.exceeds_str_digits z) eqn:E; [|reflexivity].
  apply exceeds_str_digits_spec in E. specialize (Hz z eq_refl). lia.
Qed.

(** C9 (amended). For a non-empty document and a non-empty path, when
    the document parses and the query yields a [str], a [float], a
    [bool], or an [int] of at most 4300 decimal digits,
    [JSONPathSelect.execute] returns the Python string form of that
    value. *)
Theorem select_returns_scalar
    (json_loads : string → result value)
    (jmespath_search : string → value → result value)
    (json_dumps : value → result string) (repr : value → string)
    (json_text path : string) (data current : value) :
  json_text ≠ "" →
  path ≠ "" →
  json_loads json_text = Ok data →
  jmespath_search path data = Ok current →
  Py.is_scalar current = true →
  (∀ z, current = VInt z → Z.abs z < 10 ^ Py.max_str_digits) →
  JSONPathSelect.execute json_loads jmespath_search json_dumps repr json_text path
  = Ok (mkNodeOutput [VStr (Expect.scalar_text repr current)]).
Proof.
  intros Hj%String.eqb_neq Hp%String.eqb_neq Hload Hsearch Hscalar Hdigits.
  unfold JSONPathSelect.execute. rewrite Hj, Hp, Hload. cbn [orb mbind result_bind].
  by rewrite Hsearch, Hscalar, (str_scalar _ _ Hdigits).
Qed.

Lemma short_integer (n z : Z) :
  (Z.abs n <? 10 ^ Py.max_str_digits) = true →
  VInt n = VInt z → Z.abs z < 10 ^ Py.max_str_digits.
Proof. intros H [= <-]. by apply Z.ltb_lt. Qed.

Lemma not_an_integer (v : value) (z : Z) (bound : Z) :
  match v with VInt _ => False | _ => True end → v = VInt z → Z.abs z < bound.
Proof. intros H ->. destruct H. Qed.

Lemma select_returns_scalar_witness :
  JSONPathSelect.execute Examples.toy_doc_loads Examples.toy_search
    Examples.toy_dumps_indent Examples.toy_dumps "doc" "n"
  = Ok (mkNodeOutput [VStr "42"])
  ∧ JSONPathSelect.execute Examples.toy_doc_loads Examples.toy_search
      Examples.toy_dumps_indent Examples.toy_dumps "doc" "ok"
    = Ok (mkNodeOutput [VStr "True"])
  ∧ JSONPathSelect.execute Examples.toy_doc_loads Examples.toy_search
      Examples.toy_dumps_indent Examples.toy_dumps "doc" "name"
    = Ok (mkNodeOutput [VStr "wan"]).
Proof.
  assert ("doc" ≠ "") as Hdoc by discriminate.
  assert ("n" ≠ "") as Hn by discriminate.
  assert ("ok" ≠ "") as Hok by discriminate.
  assert ("name" ≠ "") as Hname by discriminate.
  split; [|split].
  - refine (select_returns_scalar Examples.toy_doc_loads Examples.toy_search
              Examples.toy_dumps_indent Examples.toy_dumps "doc" "n" _ (VInt 42)
              Hdoc Hn eq_refl eq_refl eq_refl (λ z, short_integer 42 z _)).
    vm_compute. reflexivity.
  - exact (select_returns_scalar Examples.toy_doc_loads Examples.toy_search
              Examples.toy_dumps_indent Examples.toy_dumps "doc" "ok" _ (VBool true)
              Hdoc Hok eq_refl eq_refl eq_refl
              (λ z, not_an_integer (VBool true) z _ I)).
  - exact (select_returns_scalar Examples.toy_doc_loads Examples.toy_search
              Examples.toy_dumps_indent Examples.toy_dumps "doc" "name" _ (VStr "wan")
              Hdoc Hname eq_refl eq_refl eq_refl
              (λ z, not_an_integer (VStr "wan") z _ I)).
Defined.

(** C9 as stated fails: the sum of two integers of 4300 digits is an
    [int] of 4301 digits, and [str] refuses it with a [ValueError] that
    nothing catches. *)
Lemma select_raises_on_long_integer :
  Edge.big_loads "big" = Ok Edge.big_doc
  ∧ Edge.sum_search "sum(@)" Edge.big_doc = Ok (VInt (10 ^ 4300))
  ∧ Py.is_scalar (VInt (10 ^ 4300)) = true
  ∧ JSONPathSelect.execute Edge.big_loads Edge.sum_search Examples.toy_dumps_indent
      Examples.toy_dumps "big" "sum(@)"
    = Raise Py.str_digits_error.
Proof. split; [|split; [|split]]; vm_compute; reflexivity. Qed.

(** ** Wan video size *)

(** C10. For each resolution preset, the forced orientations
    [landscape] and [portrait] give swapped pairs and [square] gives a
    pair of equal sides. *)
Theorem orientation_swaps_size (ratio_below_threshold : Z → Z → bool)
    (image : Tensor) (resolution : string) :
  In resolution ["480p"; "720p"; "1080p"] →
  ∃ w h s : Z,
    WanVideoSize.execute ratio_below_threshold (Some image) resolution "landscape"
    = Ok (mkNodeOutput [VInt w; VInt h])
    ∧ WanVideoSize.execute ratio_below_threshold (Some image) resolution "portrait"
      = Ok (mkNodeOutput [VInt h; VInt w])
    ∧ WanVideoSize.execute ratio_below_threshold (Some image) resolution "square"
      = Ok (mkNodeOutput [VInt s; VInt s]).
Proof.
  intros [<-|[<-|[<-|[]]]]; eexists _, _, _; repeat split; reflexivity.
Qed.

Lemma orientation_swaps_size_witness :
  In "720p" ["480p"; "720p"; "1080p"]
  ∧ ∃ w h s : Z,
      WanVideoSize.execute Examples.toy_ratio_below (Some (mkTensor [1; 480; 832; 3]))
        "720p" "landscape" = Ok (mkNodeOutput [VInt w; VInt h])
      ∧ WanVideoSize.execute Examples.toy_ratio_below (Some (mkTensor [1; 480; 832; 3]))
          "720p" "portrait" = Ok (mkNodeOutput [VInt h; VInt w])
      ∧ WanVideoSize.execute Examples.toy_ratio_below (Some (mkTensor [1; 480; 832; 3]))
          "720p" "square" = Ok (mkNodeOutput [VInt s; VInt s]).
Proof.
  assert (In "720p" ["480p"; "720p"; "1080p"]) as Hin by (right; left; reflexivity).
  split; [exact Hin|].
  exact (orientation_swaps_size Examples.toy_ratio_below
           (mkTensor [1; 480; 832; 3]) "720p" Hin).
Defined.

(** The table itself: every preset has the three orientations, with
    [portrait] the swap of [landscape] and [square] equal-sided. *)
Example size_table_720p :
  WanVideoSize.execute Examples.toy_ratio_below (Some (mkTensor [1; 480; 832; 3]))
    "720p" "landscape" = Ok (mkNodeOutput [VInt 1280; VInt 720])
  ∧ WanVideoSize.execute Examples.toy_ratio_below (Some (mkTensor [1; 480; 832; 3]))
      "720p" "auto" = Ok (mkNodeOutput [VInt 1280; VInt 720])
  ∧ WanVideoSize.execute Examples.toy_ratio_below None "720p" "landscape"
    = Raise (ValueError "image is required.").
Proof. repeat split; reflexivity. Qed.

(** * Further properties of the nodes *)

(** ** Environment variables *)

Lemma mem_elem_of (key : string) (keys : list string) :
  EnvVarNode.mem key keys = true ↔ key ∈ keys.
Proof.
  unfold EnvVarNode.mem. rewrite existsb_exists. split.
  - intros (k & Hin & ->%String.eqb_eq). by apply list_elem_of_In.
  - intros Hin. exists key. split; [by apply list_elem_of_In | apply String.eqb_refl].
Qed.

Lemma table_get_absent {A} (key : string) (values : list (string * A)) :
  EnvVarNode.mem key (map fst values) = false →
  WanVideoSize.table_get key values = None.
Proof.
  induction values as [|[k a] values IH]; [reflexivity|].
  cbn [map fst EnvVarNode.mem existsb WanVideoSize.table_get].
  fold (EnvVarNode.mem key (map fst values)).
  rewrite (String.eqb_sym k key). by destruct (key =? k)%string.
Qed.

(** A key that is neither in the environment nor in the [.env] file
    resolves to the empty string. *)
Lemma dotenv_value_absent (dotenv_file : option (list (string * option string)))
    (key : string) :
  EnvVarNode.mem key (EnvVarNode._dotenv_keys dotenv_file) = false →
  EnvVarNode._dotenv_value_for dotenv_file key = VStr "".
Proof.
  unfold EnvVarNode._dotenv_value_for, EnvVarNode._dotenv_keys.
  destruct (key =? "")%string; [reflexivity|].
  destruct dotenv_file as [values|]; [|reflexivity].
  intros H. by rewrite (table_get_absent _ _ H).
Qed.

(** X1. [EnvVarNode.execute] raises exactly when [error_when_missing]
    is set and the key is empty or is in neither [os.environ] nor the
    [.env] file; a key that is set, even to the empty string, never
    raises. *)
Theorem env_var_raises_iff (environ : gmap string string)
    (dotenv_file : option (list (string * option string)))
    (env_key default_value : string) (use_fallback_when_empty error_when_missing : bool) :
  raises (EnvVarNode.execute environ dotenv_file env_key default_value
            use_fallback_when_empty error_when_missing) = true
  ↔ error_when_missing = true
    ∧ (env_key = ""
       ∨ (environ !! env_key = None
          ∧ env_key ∉ EnvVarNode._dotenv_keys dotenv_file)).
Proof.
  rewrite <- mem_elem_of. unfold EnvVarNode.execute.
  destruct (String.eqb_spec env_key "") as [->|Hne].
  { destruct error_when_missing; cbn; intuition discriminate. }
  cbv zeta. unfold EnvVarNode.in_environ.
  destruct (environ !! env_key) as [v|] eqn:Ee; cbn [default from_option id negb andb].
  - rewrite !andb_false_r. cbn [andb].
    destruct (negb _ && _); cbn; intuition discriminate.
  - cbn [String.eqb]. rewrite orb_true_r.
    destruct (EnvVarNode.mem env_key (EnvVarNode._dotenv_keys dotenv_file)) eqn:Em.
    + cbn [negb]. rewrite !andb_false_r.
      destruct (negb _ && _); cbn; split; try discriminate; intros [_ [?|[_ ?]]]; done.
    + rewrite (dotenv_value_absent _ _ Em). cbn [Py.truthy String.eqb negb andb].
      destruct (negb (default_value =? "")%string || use_fallback_when_empty),
        error_when_missing; cbn; intuition (try discriminate; auto).
Qed.

(** X2. A non-empty value in [os.environ] is the result, whatever the
    [.env] file, the default and the two switches are. *)
Theorem env_var_environment_wins (environ : gmap string string)
    (dotenv_file : option (list (string * option string)))
    (env_key v default_value : string) (use_fallback_when_empty error_when_missing : bool) :
  env_key ≠ "" →
  environ !! env_key = Some v →
  v ≠ "" →
  EnvVarNode.execute environ dotenv_file env_key default_value
    use_fallback_when_empty error_when_missing
  = Ok (mkNodeOutput [VStr v]).
Proof.
  intros Hk%String.eqb_neq He Hv%String.eqb_neq. unfold EnvVarNode.execute.
  rewrite Hk, He. cbn [default from_option id]. rewrite Hv.
  cbn [Py.truthy]. rewrite Hv. reflexivity.
Qed.

Lemma env_var_environment_wins_witness :
  EnvVarNode.execute Settings.environ Settings.dotenv_file "HOME" "fallback" true true
  = Ok (mkNodeOutput [VStr "/root"]).
Proof.
  refine (env_var_environment_wins Settings.environ Settings.dotenv_file
            "HOME" "/root" "fallback" true true _ eq_refl _); discriminate.
Defined.

(** The [.env] file gives a string or, for a bare key, [None]. *)
Lemma dotenv_value_shape (dotenv_file : option (list (string * option string)))
    (key : string) :
  EnvVarNode._dotenv_value_for dotenv_file key = VNone
  ∨ ∃ s, EnvVarNode._dotenv_value_for dotenv_file key = VStr s.
Proof.
  unfold EnvVarNode._dotenv_value_for.
  destruct (key =? "")%string; [eauto|].
  destruct dotenv_file as [vs|]; [|eauto].
  destruct (WanVideoSize.table_get key vs) as [[?|]|]; eauto.
Qed.

(** X3. With [use_fallback_when_empty] on, and unless the call raises,
    the result is the first non-empty string among the value in
    [os.environ], the value in the [.env] file and the default. *)
Theorem env_var_fallback_chain (environ : gmap string string)
    (dotenv_file : option (list (string * option string)))
    (env_key default_value : string) (error_when_missing : bool) :
  env_key ≠ "" →
  error_when_missing = false
  ∨ is_Some (environ !! env_key)
  ∨ env_key ∈ EnvVarNode._dotenv_keys dotenv_file →
  EnvVarNode.execute environ dotenv_file env_key default_value true error_when_missing
  = Ok (mkNodeOutput
          [VStr (Expect.text_or (VStr (default "" (environ !! env_key)))
                   (Expect.text_or (EnvVarNode._dotenv_value_for dotenv_file env_key)
                      default_value))]).
Proof.
  intros Hk%String.eqb_neq Hsafe. unfold EnvVarNode.execute. rewrite Hk. cbv zeta.
  assert (error_when_missing && negb (EnvVarNode.in_environ environ env_key)
          && negb (EnvVarNode.mem env_key (EnvVarNode._dotenv_keys dotenv_file))
          = false) as Hno.
  { destruct Hsafe as [->|[[v Hv]|Hin%mem_elem_of]]; [reflexivity| |].
    - unfold EnvVarNode.in_environ. rewrite Hv. by rewrite andb_false_r.
    - rewrite Hin. by rewrite andb_false_r. }
  rewrite orb_true_r, andb_true_r, Hno. cbn [orb Expect.text_or].
  destruct (default "" (environ !! env_key) =? "")%string eqn:Ee.
  - destruct (dotenv_value_shape dotenv_file env_key) as [->|[s ->]];
      cbn [Py.truthy negb Expect.text_or]; [reflexivity|].
    by destruct (s =? "")%string.
  - cbn [Py.truthy]. by rewrite Ee.
Qed.

Lemma env_var_fallback_chain_witness :
  EnvVarNode.execute Settings.environ Settings.dotenv_file "BLANK" "dflt" true true
  = Ok (mkNodeOutput [VStr "dflt"])
  ∧ EnvVarNode.execute Settings.environ Settings.dotenv_file "EMPTY" "dflt" true true
    = Ok (mkNodeOutput [VStr "dflt"])
  ∧ EnvVarNode.execute Settings.environ Settings.dotenv_file "API_URL" "dflt" true false
    = Ok (mkNodeOutput [VStr "http://localhost"]).
Proof.
  split; [|split].
  - refine (env_var_fallback_chain Settings.environ Settings.dotenv_file
              "BLANK" "dflt" true _ (or_intror (or_intror _))); [discriminate|].
    by apply mem_elem_of.
  - refine (env_var_fallback_chain Settings.environ Settings.dotenv_file
              "EMPTY" "dflt" true _ (or_intror (or_introl _))); [discriminate|].
    by eexists.
  - refine (env_var_fallback_chain Settings.environ Settings.dotenv_file
              "API_URL" "dflt" false _ (or_introl eq_refl)). discriminate.
Defined.

(** X4. With [use_fallback_when_empty] off, a variable that is set in
    [os.environ] never takes the default: the result is its value, or
    the [.env] value when it is set to the empty string. *)
Theorem env_var_set_ignores_default (environ : gmap string string)
    (dotenv_file : option (list (string * option string)))
    (env_key v default_value : string) (error_when_missing : bool) :
  env_key ≠ "" →
  environ !! env_key = Some v →
  EnvVarNode.execute environ dotenv_file env_key default_value false error_when_missing
  = Ok (mkNodeOutput
          [if (v =? "")%string then EnvVarNode._dotenv_value_for dotenv_file env_key
           else VStr v]).
Proof.
  intros Hk%String.eqb_neq He. unfold EnvVarNode.execute, EnvVarNode.in_environ.
  rewrite Hk, He. cbn [default from_option id negb orb]. rewrite !andb_false_r.
  cbn [andb]. by destruct (negb _ && _).
Qed.

Lemma env_var_set_ignores_default_witness :
  EnvVarNode.execute Settings.environ Settings.dotenv_file "EMPTY" "dflt" false true
  = Ok (mkNodeOutput [VStr ""]).
Proof.
  refine (env_var_set_ignores_default Settings.environ Settings.dotenv_file
            "EMPTY" "" "dflt" true _ eq_refl). discriminate.
Defined.

#[local] Instance str_le_total : Total EnvVarNode.str_le.
Proof. intros a b. apply String.leb_total. Qed.

(** X5. [_available_env_keys] lists exactly the keys of the [.env] file
    and the keys of [os.environ] that start with [COMFYUI_], each once,
    in ascending order. *)
Theorem available_env_keys_spec (environ : gmap string string)
    (dotenv_file : option (list (string * option string))) :
  (∀ key : string,
     key ∈ EnvVarNode._available_env_keys environ dotenv_file
     ↔ key ∈ EnvVarNode._dotenv_keys dotenv_file
       ∨ (is_Some (environ !! key) ∧ String.prefix "COMFYUI_" key = true))
  ∧ NoDup (EnvVarNode._available_env_keys environ dotenv_file)
  ∧ Sorted EnvVarNode.str_le (EnvVarNode._available_env_keys environ dotenv_file).
Proof.
  unfold EnvVarNode._available_env_keys. cbv zeta. split; [|split].
  - intros key. rewrite merge_sort_Permutation, elem_of_elements, elem_of_union,
      elem_of_list_to_set, elem_of_filter, elem_of_dom. tauto.
  - rewrite merge_sort_Permutation. apply NoDup_elements.
  - apply Sorted_merge_sort, _.
Qed.

Example available_env_keys_settings :
  EnvVarNode._available_env_keys Settings.environ Settings.dotenv_file
  = ["API_URL"; "BARE"; "BLANK"; "COMFYUI_PORT"].
Proof. vm_compute. reflexivity. Qed.

(** ** JSON path selection: errors *)

(** [str] refuses exactly the integers of more than 4300 digits. *)
Lemma str_raises_iff (repr : value → string) (v : value) :
  raises (Py.str repr v) = true
  ↔ ∃ z, v = VInt z ∧ 10 ^ Py.max_str_digits ≤ Z.abs z.
Proof.
  split.
  - destruct v as [| [|] |z| | | |]; try discriminate. unfold Py.str.
    destruct (Py.exceeds_str_digits z) eqn:E; [|discriminate].
    intros _. exists z. split; [reflexivity|]. by apply exceeds_str_digits_spec.
  - intros (z & -> & Hz%exceeds_str_digits_spec). unfold Py.str. by rewrite Hz.
Qed.

(** X6. [JSONPathSelect.execute] raises exactly when both inputs are
    non-empty and either [json.loads] raises or the query yields an
    integer of more than 4300 digits, which [str] refuses: an error of
    [jmespath.search] or of [json.dumps] never reaches the caller. *)
Theorem select_raises_iff
    (json_loads : string → result value)
    (jmespath_search : string → value → result value)
    (json_dumps : value → result string) (repr : value → string)
    (json_text path : string) :
  raises (JSONPathSelect.execute json_loads jmespath_search json_dumps repr
            json_text path) = true
  ↔ json_text ≠ "" ∧ path ≠ ""
    ∧ (raises (json_loads json_text) = true
       ∨ ∃ (data : value) (z : Z),
           json_loads json_text = Ok data
           ∧ jmespath_search path data = Ok (VInt z)
           ∧ 10 ^ Py.max_str_digits ≤ Z.abs z).
Proof.
  unfold JSONPathSelect.execute.
  destruct (String.eqb_spec json_text "") as [->|Hj].
  { split; [discriminate | by intros [? _]]. }
  destruct (String.eqb_spec path "") as [->|Hp].
  { split; [discriminate | by intros (_ & ? & _)]. }
  cbn [orb]. destruct (json_loads json_text) as [data|e]; cbn [mbind result_bind].
  - assert (∀ P : Prop,
      (P ↔ ∃ z, jmespath_search path data = Ok (VInt z)
                ∧ 10 ^ Py.max_str_digits ≤ Z.abs z) →
      (P ↔ json_text ≠ "" ∧ path ≠ ""
           ∧ (raises (Ok data : result value) = true
              ∨ ∃ (data' : value) (z : Z),
                  Ok data = Ok data'
                  ∧ jmespath_search path data' = Ok (VInt z)
                  ∧ 10 ^ Py.max_str_digits ≤ Z.abs z))) as Hwrap.
    { intros P ->. split.
      - intros (z & Hs & Hz). split; [done|]. split; [done|]. right. eauto.
      - intros (_ & _ & [?|(data' & z & [= <-] & Hs & Hz)]); [done|]. eauto. }
    apply Hwrap. clear Hwrap.
    destruct (jmespath_search path data) as [current|e].
    + destruct (Py.is_scalar current) eqn:Es.
      * destruct (Py.str repr current) as [s|e] eqn:Estr; cbn [mbind result_bind].
        -- split; [discriminate|]. intros (z & [= ->] & Hz).
           assert (raises (Py.str repr (VInt z)) = true) as Hr
             by (apply str_raises_iff; eauto).
           by rewrite Estr in Hr.
        -- split; [|done]. intros _.
           assert (raises (Py.str repr current) = true) as Hr by by rewrite Estr.
           apply str_raises_iff in Hr as (z & -> & Hz). eauto.
      * rewrite finally_return_discards. split; [discriminate|].
        by intros (z & [= ->] & _).
    + split; [discriminate|]. by intros (z & ? & _).
  - split; [|done]. intros _. split; [done|]. split; [done|]. by left.
Qed.

Lemma select_raises_iff_witness :
  raises (JSONPathSelect.execute Edge.big_loads Edge.sum_search
            Examples.toy_dumps_indent Examples.toy_dumps "none" "sum(@)") = true.
Proof.
  assert ("none" ≠ "") as Hnone by discriminate.
  assert ("sum(@)" ≠ "") as Hsum by discriminate.
  apply (proj2 (select_raises_iff Edge.big_loads Edge.sum_search
                  Examples.toy_dumps_indent Examples.toy_dumps "none" "sum(@)")).
  split; [exact Hnone|]. split; [exact Hsum|]. left. reflexivity.
Defined.

(** ** Wan video size: orientation detection and errors *)

Lemma shape_from_end_3 (pre : list Z) (h w c : Z) :
  WanVideoSize.shape_from_end (pre ++ [h; w; c]) 3 = Ok h
  ∧ WanVideoSize.shape_from_end (pre ++ [h; w; c]) 2 = Ok w.
Proof. unfold WanVideoSize.shape_from_end. by rewrite rev_app_distr. Qed.

Lemma orientation_from_image_cases (ratio_below_threshold : Z → Z → bool)
    (image : Tensor) (pre : list Z) (h w c : Z) :
  shape image = pre ++ [h; w; c] →
  0 < h →
  0 < w →
  ∃ o : string,
    WanVideoSize._orientation_from_image ratio_below_threshold image = Ok o
    ∧ (o = "square" ∨ (o = "landscape" ∧ h < w) ∨ (o = "portrait" ∧ w < h))
    ∧ (h = w → o = "square").
Proof.
  intros Hs Hh Hw. unfold WanVideoSize._orientation_from_image.
  destruct (shape_from_end_3 pre h w c) as [H3 H2]. rewrite Hs, H3, H2.
  cbn [mbind result_bind].
  destruct (Z.leb_spec h 0); [lia|]. destruct (Z.leb_spec w 0); [lia|]. cbn [orb].
  destruct (_ && _); [eauto 6|].
  destruct (Z.ltb_spec h w); [eexists; split; [reflexivity|]; split; [auto|lia]|].
  destruct (Z.ltb_spec w h); [eexists; split; [reflexivity|]; split; [auto|lia]|].
  eauto 6.
Qed.

(** X7. For an image of positive height [h] and width [w] (the third
    and second dimensions from the end), [_orientation_from_image]
    returns ["square"], ["landscape"] or ["portrait"]; whatever the
    floating-point comparison says, it is ["landscape"] only when
    [w > h], ["portrait"] only when [h > w], and ["square"] whenever
    [h = w]. *)
Theorem orientation_from_image_sound (ratio_below_threshold : Z → Z → bool)
    (image : Tensor) (pre : list Z) (h w c : Z) :
  shape image = pre ++ [h; w; c] →
  0 < h →
  0 < w →
  ∃ o : string,
    WanVideoSize._orientation_from_image ratio_below_threshold image = Ok o
    ∧ (o = "square" ∨ (o = "landscape" ∧ h < w) ∨ (o = "portrait" ∧ w < h))
    ∧ (h = w → o = "square").
Proof. apply orientation_from_image_cases. Qed.

Lemma orientation_from_image_sound_witness :
  ∃ o : string,
    WanVideoSize._orientation_from_image Examples.toy_ratio_below
      (mkTensor [1; 480; 832; 3]) = Ok o
    ∧ (o = "square" ∨ (o = "landscape" ∧ 480 < 832) ∨ (o = "portrait" ∧ 832 < 480))
    ∧ (480 = 832 → o = "square").
Proof.
  refine (orientation_from_image_sound Examples.toy_ratio_below
            (mkTensor [1; 480; 832; 3]) [1] 480 832 3 eq_refl _ _); lia.
Defined.

(** X8. [_orientation_from_image] raises [IndexError] on a shape of
    fewer than three dimensions and [ValueError] on a height or width
    that is not positive. *)
Theorem orientation_from_image_errors (ratio_below_threshold : Z → Z → bool)
    (image : Tensor) :
  ((length (shape image) < 3)%nat →
   WanVideoSize._orientation_from_image ratio_below_threshold image = Raise IndexError)
  ∧ (∀ (pre : list Z) (h w c : Z),
       shape image = pre ++ [h; w; c] →
       h ≤ 0 ∨ w ≤ 0 →
       WanVideoSize._orientation_from_image ratio_below_threshold image
       = Raise (ValueError ("Invalid image dimensions: "
                            +:+ pretty w +:+ "x" +:+ pretty h))).
Proof.
  split.
  - intros Hlen. unfold WanVideoSize._orientation_from_image,
      WanVideoSize.shape_from_end.
    assert (rev (shape image) !! (3 - 1)%nat = None) as ->; [|reflexivity].
    apply lookup_ge_None. rewrite length_rev. cbn. lia.
  - intros pre h w c Hs Hneg. unfold WanVideoSize._orientation_from_image.
    destruct (shape_from_end_3 pre h w c) as [H3 H2]. rewrite Hs, H3, H2.
    cbn [mbind result_bind].
    destruct (Z.leb_spec h 0); [reflexivity|].
    destruct (Z.leb_spec w 0); [reflexivity|]. lia.
Qed.

Lemma orientation_from_image_errors_witness :
  WanVideoSize._orientation_from_image Examples.toy_ratio_below (mkTensor [480; 832])
  = Raise IndexError
  ∧ WanVideoSize._orientation_from_image Examples.toy_ratio_below
      (mkTensor [1; 0; 832; 3])
    = Raise (ValueError "Invalid image dimensions: 832x0").
Proof.
  split.
  - refine (proj1 (orientation_from_image_errors Examples.toy_ratio_below
                     (mkTensor [480; 832])) _). cbn. lia.
  - refine (proj2 (orientation_from_image_errors Examples.toy_ratio_below
                     (mkTensor [1; 0; 832; 3])) [1] 0 832 3 eq_refl _). lia.
Defined.

(** X9. In [auto] mode, for a known preset and an image of positive
    height and width, [WanVideoSize.execute] succeeds and keeps the
    aspect of the image: a wider image never gets a taller size, a
    taller image never a wider one, and a square image gets a square
    size. *)
Theorem auto_orientation_keeps_aspect (ratio_below_threshold : Z → Z → bool)
    (image : Tensor) (pre : list Z) (h w c : Z) (resolution : string) :
  In resolution ["480p"; "720p"; "1080p"] →
  shape image = pre ++ [h; w; c] →
  0 < h →
  0 < w →
  ∃ W H : Z,
    WanVideoSize.execute ratio_below_threshold (Some image) resolution "auto"
    = Ok (mkNodeOutput [VInt W; VInt H])
    ∧ (h < w → H ≤ W) ∧ (w < h → W ≤ H) ∧ (h = w → W = H).
Proof.
  intros Hres Hs Hh Hw.
  destruct (orientation_from_image_cases ratio_below_threshold image pre h w c
              Hs Hh Hw) as (o & Ho & Hcases & Heq).
  unfold WanVideoSize.execute. rewrite Ho.
  change ("auto" =? "auto")%string with true. cbn [mbind result_bind].
  destruct Hres as [<-|[<-|[<-|[]]]];
    destruct Hcases as [->|[[-> ?]|[-> ?]]];
    (eexists _, _; split; [reflexivity|]);
    repeat split; intros; try lia;
    match goal with
    | Hsq : ?a = ?b → _ = "square", Hab : ?a = ?b |- _ =>
        specialize (Hsq Hab); discriminate
    end.
Qed.

Lemma auto_orientation_keeps_aspect_witness :
  ∃ W H : Z,
    WanVideoSize.execute Examples.toy_ratio_below (Some (mkTensor [1; 832; 480; 3]))
      "480p" "auto" = Ok (mkNodeOutput [VInt W; VInt H])
    ∧ (832 < 480 → H ≤ W) ∧ (480 < 832 → W ≤ H) ∧ (832 = 480 → W = H).
Proof.
  refine (auto_orientation_keeps_aspect Examples.toy_ratio_below
            (mkTensor [1; 832; 480; 3]) [1] 832 480 3 "480p" _ eq_refl _ _);
    [left; reflexivity | lia | lia].
Defined.

(** The three orientations a size table knows. *)
Lemma preset_sizes (resolution : string) (sizes : list (string * (Z * Z))) :
  WanVideoSize.table_get resolution WanVideoSize._SIZE_TABLE = Some sizes →
  In resolution ["480p"; "720p"; "1080p"]
  ∧ ∀ (o : string) (W H : Z),
      WanVideoSize.table_get o sizes = Some (W, H) →
      In o ["landscape"; "portrait"; "square"]
      ∧ 0 < W ∧ 0 < H ∧ W mod 16 = 0 ∧ H mod 16 = 0.
Proof.
  unfold WanVideoSize._SIZE_TABLE. cbn [WanVideoSize.table_get].
  destruct (String.eqb_spec "480p" resolution) as [<-|_];
    [|destruct (String.eqb_spec "720p" resolution) as [<-|_];
      [|destruct (String.eqb_spec "1080p" resolution) as [<-|_]; [|discriminate]]];
    intros [= <-]; (split; [cbn; tauto|]); intros o W H;
    cbn [WanVideoSize.table_get];
    (destruct (String.eqb_spec "landscape" o) as [<-|_];
     [|destruct (String.eqb_spec "portrait" o) as [<-|_];
       [|destruct (String.eqb_spec "square" o) as [<-|_]; [|discriminate]]]);
    intros [= <- <-]; (split; [cbn; tauto|]); repeat split; reflexivity.
Qed.

(** X10. Whatever the inputs, a size that [WanVideoSize.execute]
    returns is a pair of positive integers that are both multiples of
    16. *)
Theorem size_is_multiple_of_16 (ratio_below_threshold : Z → Z → bool)
    (image : option Tensor) (resolution orientation : string) (out : NodeOutput) :
  WanVideoSize.execute ratio_below_threshold image resolution orientation = Ok out →
  ∃ W H : Z,
    out = mkNodeOutput [VInt W; VInt H]
    ∧ 0 < W ∧ 0 < H ∧ W mod 16 = 0 ∧ H mod 16 = 0.
Proof.
  unfold WanVideoSize.execute. destruct image as [image|]; [|discriminate].
  destruct (if (orientation =? "auto")%string
            then WanVideoSize._orientation_from_image ratio_below_threshold image
            else Ok orientation) as [o|]; [|discriminate].
  cbn [mbind result_bind].
  destruct (WanVideoSize.table_get resolution WanVideoSize._SIZE_TABLE)
    as [sizes|] eqn:Er; [|discriminate].
  destruct (WanVideoSize.table_get o sizes) as [[W H]|] eqn:Eo; [|discriminate].
  intros [= <-]. exists W, H. split; [reflexivity|].
  apply (proj2 (preset_sizes _ _ Er) _ _ _ Eo).
Qed.

Lemma size_is_multiple_of_16_witness :
  ∃ W H : Z,
    mkNodeOutput [VInt 1088; VInt 1920] = mkNodeOutput [VInt W; VInt H]
    ∧ 0 < W ∧ 0 < H ∧ W mod 16 = 0 ∧ H mod 16 = 0.
Proof.
  exact (size_is_multiple_of_16 Examples.toy_ratio_below
           (Some (mkTensor [1; 832; 480; 3])) "1080p" "portrait" _ eq_refl).
Defined.

(** X11. With an image and a forced orientation, [WanVideoSize.execute]
    succeeds exactly when the preset is one of [480p], [720p], [1080p]
    and the orientation one of [landscape], [portrait], [square];
    without an image it raises. *)
Theorem forced_orientation_succeeds_iff (ratio_below_threshold : Z → Z → bool)
    (image : Tensor) (resolution orientation : string) :
  orientation ≠ "auto" →
  (raises (WanVideoSize.execute ratio_below_threshold (Some image)
             resolution orientation) = false
   ↔ In resolution ["480p"; "720p"; "1080p"]
     ∧ In orientation ["landscape"; "portrait"; "square"])
  ∧ raises (WanVideoSize.execute ratio_below_threshold None
              resolution orientation) = true.
Proof.
  intros Hauto%String.eqb_neq. split; [|reflexivity].
  unfold WanVideoSize.execute. rewrite Hauto. cbn [mbind result_bind].
  destruct (WanVideoSize.table_get resolution WanVideoSize._SIZE_TABLE)
    as [sizes|] eqn:Er.
  - destruct (preset_sizes _ _ Er) as [Hres Hsizes].
    destruct (WanVideoSize.table_get orientation sizes) as [[W H]|] eqn:Eo.
    + cbn. split; [|done]. intros _. split; [done|]. apply (Hsizes _ _ _ Eo).
    + cbn. split; [discriminate|]. intros [_ Ho]. exfalso.
      revert Er Eo. unfold WanVideoSize._SIZE_TABLE.
      destruct Hres as [<-|[<-|[<-|[]]]]; intros [= <-];
        destruct Ho as [<-|[<-|[<-|[]]]]; discriminate.
  - cbn. split; [discriminate|]. intros [Hres _]. exfalso. revert Er.
    destruct Hres as [<-|[<-|[<-|[]]]]; discriminate.
Qed.

Lemma forced_orientation_succeeds_iff_witness :
  raises (WanVideoSize.execute Examples.toy_ratio_below
            (Some (mkTensor [1; 832; 480; 3])) "4k" "landscape") = true
  ∧ raises (WanVideoSize.execute Examples.toy_ratio_below
              (Some (mkTensor [1; 832; 480; 3])) "720p" "square") = false.
Proof.
  assert ("landscape" ≠ "auto") as H1 by discriminate.
  assert ("square" ≠ "auto") as H2 by discriminate.
  split.
  - destruct (raises (WanVideoSize.execute Examples.toy_ratio_below
                (Some (mkTensor [1; 832; 480; 3])) "4k" "landscape")) eqn:E;
      [reflexivity|].
    destruct (proj1 (proj1 (forced_orientation_succeeds_iff Examples.toy_ratio_below
                (mkTensor [1; 832; 480; 3]) "4k" "landscape" H1)) E)
      as [[?|[?|[?|[]]]] _]; discriminate.
  - apply (proj1 (forced_orientation_succeeds_iff Examples.toy_ratio_below
             (mkTensor [1; 832; 480; 3]) "720p" "square" H2)).
    split; cbn; tauto.
Defined.

(** ** The response normaliser: what every result looks like *)

Lemma for_each_invariant {S} (body : S → value → result S) (P : S → Prop) :
  (∀ s x s', body s x = Ok s' → P s → P s') →
  ∀ (items : list value) (s s' : S),
    Py.for_each body items s = Ok s' → P s → P s'.
Proof.
  intros Hstep items. induction items as [|x items IH]; intros s s'; cbn.
  - by intros [= <-].
  - destruct (body s x) as [s1|] eqn:E; [|discriminate]. cbn.
    intros Hrest Hs. eapply IH; [exact Hrest|]. by eapply Hstep.
Qed.

Lemma in_call_types (t : value) :
  existsb (Py.eq_str t) call_types = true → ∃ s, t = VStr s ∧ In s call_types.
Proof.
  intros (s & Hin & Heq)%existsb_exists. exists s. split; [|done].
  destruct t; try discriminate. cbn in Heq. by apply String.eqb_eq in Heq as ->.
Qed.

(** One round of the [output] loop leaves the calls as they are or adds
    one ToolCall of the item's type, which is then a call type. *)
Lemma output_call_step_inv (calls calls' : list value) (item : value) :
  output_call_step calls item = Ok calls' →
  ∃ d, item = VDict d
       ∧ (calls' = calls
          ∨ ∃ i n a s, calls' = calls ++ [tool_call (VStr s) i n a]
                       ∧ Py.dget d "type" VNone = VStr s ∧ In s call_types).
Proof.
  destruct item as [| | | | | |d]; try discriminate. intros H. exists d.
  split; [reflexivity|]. revert H. unfold output_call_step, Py.in_strset.
  cbn [Py.get mbind result_bind].
  destruct (Py.hashable (Py.dget d "type" VNone)); [|discriminate].
  cbn [mbind result_bind].
  destruct (existsb _ call_types) eqn:Et; [|intros [= <-]; by left].
  apply in_call_types in Et as (s & Ht & Hin). rewrite Ht.
  destruct (Py.truthy (Py.dget d "id" VNone));
    cbn [mbind result_bind mret result_ret];
    (destruct (Py.dget d "function" (VDict [])); try discriminate);
    cbn [Py.get mbind result_bind mret result_ret];
    intros [= <-]; right; eauto 8.
Qed.

Lemma chat_call_step_inv (calls calls' : list value) (tc : value) :
  chat_call_step calls tc = Ok calls' →
  ∃ t i n a, calls' = calls ++ [tool_call t i n a].
Proof.
  destruct tc as [| | | | | |d]; try discriminate.
  unfold chat_call_step. cbn [Py.get mbind result_bind].
  destruct (Py.dget d "function" (VDict [])); try discriminate.
  cbn [Py.get mbind result_bind mret result_ret]. intros [= <-]. eauto.
Qed.

(** X12. Whatever the response, every element of a list that
    [_extract_tool_calls] returns is a dict
    [{type, id, function: {name, arguments}}] with exactly these keys;
    when the response has [output], its [type] is one of
    [function_call], [tool_call], [mcp_call]. *)
Theorem tool_calls_are_normalised (data : dict) (calls : list value) :
  _extract_tool_calls data = Ok calls →
  Forall (λ c, ∃ t i n a,
            c = VDict [("type", t); ("id", i);
                       ("function", VDict [("name", n); ("arguments", a)])]
            ∧ (Py.contains "output" data = true →
               ∃ s, t = VStr s ∧ In s ["function_call"; "tool_call"; "mcp_call"]))
         calls.
Proof.
  unfold _extract_tool_calls. destruct (Py.contains "output" data) eqn:Ho.
  - destruct (Py.getitem (VDict data) "output") as [out|]; [|discriminate].
    cbn [mbind result_bind]. destruct (Py.iter out) as [items|]; [|discriminate].
    cbn [mbind result_bind]. intros H.
    eapply (for_each_invariant output_call_step); [|exact H|constructor].
    intros s x s' Hstep Hs.
    apply output_call_step_inv in Hstep as (d & _ & [->|(i & n & a & t & -> & _ & Hin)]);
      [done|].
    apply Forall_app. split; [done|]. repeat constructor. eauto 10.
  - destruct (Py.eq_str _ "chat.completion"); [|intros [= <-]; constructor].
    cbv zeta. destruct (negb _); [intros [= <-]; constructor|].
    destruct (Py.getitem0 _) as [c0|]; [|discriminate]. cbn [mbind result_bind].
    destruct (Py.get c0 "message" (VDict [])) as [msg|]; [|discriminate].
    cbn [mbind result_bind].
    destruct (Py.get msg "tool_calls" VNone) as [tc0|]; [|discriminate].
    cbn [mbind result_bind].
    destruct (Py.iter _) as [tcs|]; [|discriminate]. cbn [mbind result_bind].
    intros H. eapply (for_each_invariant chat_call_step); [|exact H|constructor].
    intros s x s' Hstep Hs. apply chat_call_step_inv in Hstep as (t & i & n & a & ->).
    apply Forall_app. split; [done|]. repeat constructor.
    exists t, i, n, a. split; [reflexivity | discriminate].
Qed.

Lemma tool_calls_are_normalised_witness :
  Forall (λ c, ∃ t i n a,
            c = VDict [("type", t); ("id", i);
                       ("function", VDict [("name", n); ("arguments", a)])]
            ∧ (Py.contains "output" Examples.responses_payload = true →
               ∃ s, t = VStr s ∧ In s ["function_call"; "tool_call"; "mcp_call"]))
         [tool_call (VStr "function_call") (VStr "c7") (VStr "f") (VStr "{}")].
Proof.
  exact (tool_calls_are_normalised Examples.responses_payload _ eq_refl).
Defined.

Lemma call_type_is_skipped (s : string) :
  In s call_types → existsb (Py.eq_str (VStr s)) non_text_types = true.
Proof. intros [<-|[<-|[<-|[]]]]; reflexivity. Qed.

(** X13. An output item for which [_extract_tool_calls] adds a ToolCall
    adds nothing to the text: its type is in the skip set of
    [_extract_text]. *)
Theorem call_item_has_no_text (calls calls' parts : list value) (item : value) :
  output_call_step calls item = Ok calls' →
  calls' ≠ calls →
  text_item_step parts item = Ok parts.
Proof.
  intros (d & -> & [->|(i & n & a & s & _ & Ht & Hin)])%output_call_step_inv Hne;
    [done|].
  unfold text_item_step, Py.in_strset. cbn [Py.get mbind result_bind].
  rewrite Ht. cbn [Py.hashable mbind result_bind].
  by rewrite (call_type_is_skipped _ Hin).
Qed.

Lemma call_item_has_no_text_witness :
  text_item_step [VStr "a"]
    (VDict [("type", VStr "mcp_call"); ("id", VStr "m1"); ("text", VStr "ignored")])
  = Ok [VStr "a"].
Proof.
  refine (call_item_has_no_text []
            [tool_call (VStr "mcp_call") (VStr "m1") (VStr "") (VStr "")]
            [VStr "a"]
            (VDict [("type", VStr "mcp_call"); ("id", VStr "m1");
                    ("text", VStr "ignored")]) eq_refl _).
  discriminate.
Defined.

(** X14. For a Chat-Completions response (no [output], no
    [output_text], [object == "chat.completion"]): empty or missing
    [choices] give the empty text and no tool calls; otherwise the text
    is the [content] of the first choice's [message], or the empty
    string when that is absent, null or empty, and a [message] that is
    present but not an object raises [AttributeError]. *)
Theorem extract_text_from_chat (data : dict) :
  Py.contains "output" data = false →
  Py.contains "output_text" data = false →
  Py.eq_str (Py.dget data "object" VNone) "chat.completion" = true →
  (Py.truthy (Py.dget data "choices" VNone) = false →
   _extract_text data = Ok (VStr "") ∧ _extract_tool_calls data = Ok [])
  ∧ (∀ (c0 : dict) (rest : list value),
       Py.dget data "choices" VNone = VList (VDict c0 :: rest) →
       _extract_text data
       = match Py.dget c0 "message" (VDict []) with
         | VDict m =>
             let content := Py.dget m "content" VNone in
             Ok (if Py.truthy content then content else VStr "")
         | _ => Raise AttributeError
         end).
Proof.
  intros Hout Hot Hobj. unfold _extract_text, _extract_tool_calls.
  rewrite Hout, Hot, Hobj. cbn [orb]. cbv zeta. unfold Py.or_. split.
  - intros ->. split; reflexivity.
  - intros c0 rest ->. cbn [Py.truthy negb Py.getitem0 Py.get mbind result_bind].
    by destruct (Py.dget c0 "message" (VDict [])).
Qed.

Lemma extract_text_from_chat_witness :
  _extract_text Examples.chat_payload = Ok (VStr "").
Proof.
  exact (proj2 (extract_text_from_chat Examples.chat_payload eq_refl eq_refl eq_refl)
           _ _ eq_refl).
Defined.

(** ** The chat completion node *)

Lemma append_cons (c : ascii) (s t : string) :
  String.append (String c s) t = String c (String.append s t).
Proof. reflexivity. Qed.

Lemma length_append (a b : string) :
  String.length (String.append a b) = (String.length a + String.length b)%nat.
Proof.
  induction a as [|c a IH]; [reflexivity|].
  rewrite append_cons. cbn [String.length]. by rewrite IH.
Qed.

Lemma substring_all (b : string) : substring 0 (String.length b) b = b.
Proof. induction b as [|c b IH]; [reflexivity|]. cbn. by rewrite IH. Qed.

Lemma substring_app_l (a b : string) :
  substring 0 (String.length a) (String.append a b) = a.
Proof.
  induction a as [|c a IH]; [by destruct b|].
  rewrite append_cons. cbn. by rewrite IH.
Qed.

Lemma substring_app_r (a b : string) (k : nat) :
  substring (String.length a) k (String.append a b) = substring 0 k b.
Proof. induction a as [|c a IH]; [reflexivity|]. rewrite append_cons. exact IH. Qed.

(** [removesuffix] undoes appending the suffix. *)
Lemma removesuffix_append (b suf : string) :
  removesuffix (String.append b suf) suf = b.
Proof.
  unfold removesuffix. rewrite length_append.
  replace (String.length b + String.length suf - String.length suf)%nat
    with (String.length b) by lia.
  rewrite substring_app_r, substring_all, String.eqb_refl, substring_app_l.
  destruct (Nat.leb_spec (String.length suf) (String.length b + String.length suf));
    [reflexivity | lia].
Qed.

(** One more trailing slash changes nothing. *)
Lemma rstrip_slash_append_slash (s : string) :
  rstrip_slash (String.append s "/") = rstrip_slash s.
Proof.
  induction s as [|c s IH]; [reflexivity|].
  rewrite append_cons. cbn [rstrip_slash]. by rewrite IH.
Qed.

(** A string that ends in something other than a slash is kept. *)
Lemma rstrip_slash_keeps (b s : string) :
  s ≠ "" → rstrip_slash s = s → rstrip_slash (String.append b s) = String.append b s.
Proof.
  intros Hne Hs. induction b as [|c b IH]; [exact Hs|].
  rewrite append_cons. cbn [rstrip_slash]. rewrite IH.
  destruct (String.append b s) eqn:E; [|reflexivity].
  destruct b; [by subst | discriminate].
Qed.

(** The copy-and-append step, run on a heap that holds [messages]. *)
Lemma append_assistant_turn_run (h : heap) (messages : loc) (ms : list value)
    (response_text tool_calls : value) :
  h !! messages = Some ms →
  append_assistant_turn messages response_text tool_calls h
  = Ok (fresh (dom h),
        <[fresh (dom h) := ms ++ [VDict (assistant_entry response_text tool_calls)]]>
          (<[fresh (dom h) := ms]> h)).
Proof.
  intros Hm. unfold append_assistant_turn, list_copy, bind, read, alloc, list_append, ret.
  rewrite Hm. cbv zeta. by rewrite lookup_insert_eq.
Qed.

Lemma fresh_not_live (h : heap) (r : loc) : is_Some (h !! r) → r ≠ fresh (dom h).
Proof.
  intros Hr ->. apply elem_of_dom in Hr. by apply (is_fresh (dom h)).
Qed.

(** X15. [CustomOpenAIChatCompletion.execute] rejects its input with a
    [ValueError], whatever the client would answer, when no API key is
    given and [OPENAI_API_KEY] is unset or empty, when [messages_json]
    is missing or empty, and when it decodes to anything but a
    non-empty list. *)
Theorem execute_rejects_invalid_input
    (environ_get : string → string → string)
    (json_loads : string → result value) (json_dumps : value → string)
    (api_base api_key model : string) (messages_json : option string)
    (tools_json : string) (temperature : spec_float) (max_tokens : Z)
    (timeout_seconds : spec_float) :
  (api_key = "" ∧ environ_get "OPENAI_API_KEY" "" = "")
  ∨ messages_json = None
  ∨ messages_json = Some ""
  ∨ (∃ s v, messages_json = Some s ∧ json_loads s = Ok v
            ∧ ∀ m ms, v ≠ VList (m :: ms)) →
  ∃ msg : string,
    ∀ (chat_completions_create : string → string → request → result dict) (h : heap),
      execute environ_get json_loads json_dumps chat_completions_create
        api_base api_key model messages_json tools_json temperature max_tokens
        timeout_seconds h
      = Raise (ValueError msg).
Proof.
  intros Hbad. unfold execute.
  destruct ((if (api_key =? "")%string then environ_get "OPENAI_API_KEY" ""
             else api_key) =? "")%string eqn:Ekey; [by eexists|].
  destruct Hbad as [[-> Henv]|[->|[->|(s & v & -> & Hload & Hshape)]]].
  - by rewrite Henv in Ekey.
  - by eexists.
  - by eexists.
  - destruct s as [|c s]; [by eexists|].
    eexists. intros client h. unfold bind, lift. rewrite Hload.
    destruct v as [| | | | |[|m ms]|]; try reflexivity.
    by destruct (Hshape m ms).
Qed.

Lemma execute_rejects_invalid_input_witness :
  ∃ msg : string,
    ∀ (chat_completions_create : string → string → request → result dict) (h : heap),
      execute Settings.environ_get Settings.loads Examples.toy_dumps
        chat_completions_create "https://api.openai.com/v1" "" "gpt-4o-mini"
        (Some "[]") "[]" Settings.one 1024 Settings.one h
      = Raise (ValueError msg).
Proof.
  refine (execute_rejects_invalid_input Settings.environ_get Settings.loads
            Examples.toy_dumps "https://api.openai.com/v1" "" "gpt-4o-mini"
            (Some "[]") "[]" Settings.one 1024 Settings.one _).
  right. right. right. exists "[]", (VList []). repeat split. discriminate.
Defined.

(** X16. When the key is given, the messages decode to a non-empty
    list, the tools decode and the client answers, [execute] returns
    four outputs: the extracted text, the serialised response, the
    serialised tool calls, and the serialised input messages followed
    by the assistant entry; every list object that was live before the
    call is unchanged. *)
Theorem execute_outputs
    (environ_get : string → string → string)
    (json_loads : string → result value) (json_dumps : value → string)
    (chat_completions_create : string → string → request → result dict)
    (api_base api_key model messages_json tools_json : string)
    (temperature : spec_float) (max_tokens : Z) (timeout_seconds : spec_float)
    (m : value) (ms : list value) (tools : value) (data : dict)
    (text : value) (calls : list value) (h : heap) :
  api_key ≠ "" →
  messages_json ≠ "" →
  json_loads messages_json = Ok (VList (m :: ms)) →
  tools_json ≠ "" →
  json_loads tools_json = Ok tools →
  chat_completions_create api_key
    (removesuffix (rstrip_slash api_base) "/chat/completions")
    {| req_model := model;
       req_messages := m :: ms;
       req_temperature := temperature;
       req_timeout := timeout_seconds;
       req_tools := if Py.truthy tools then tools else VNone;
       req_max_tokens := if 0 <? max_tokens then Some max_tokens else None |}
  = Ok data →
  _extract_text data = Ok text →
  _extract_tool_calls data = Ok calls →
  ∃ h' : heap,
    execute environ_get json_loads json_dumps chat_completions_create
      api_base api_key model (Some messages_json) tools_json temperature max_tokens
      timeout_seconds h
    = Ok (mkNodeOutput
            [text; VStr (json_dumps (VDict data)); VStr (json_dumps (VList calls));
             VStr (json_dumps
                     (VList ((m :: ms)
                             ++ [VDict (assistant_entry text (VList calls))])))],
          h')
    ∧ ∀ r : loc, is_Some (h !! r) → h' !! r = h !! r.
Proof.
  intros Hkey%String.eqb_neq Hmj Hload Htj%String.eqb_neq Htools Hclient Htext Hcalls.
  unfold execute. rewrite Hkey, Hkey.
  destruct messages_json as [|c s]; [done|].
  unfold bind at 1. unfold lift at 1. rewrite Hload.
  unfold bind at 1. unfold alloc at 1. cbv zeta.
  set (r1 := fresh (dom h)). set (h1 := <[r1 := m :: ms]> h).
  unfold bind at 1. unfold lift at 1. rewrite Htj, Htools.
  unfold bind at 1. unfold read at 1.
  assert (h1 !! r1 = Some (m :: ms)) as Hr1 by apply lookup_insert_eq.
  rewrite Hr1.
  unfold bind at 1. unfold lift at 1. rewrite Hclient.
  unfold bind at 1. unfold lift at 1. rewrite Htext.
  unfold bind at 1. unfold lift at 1. rewrite Hcalls.
  unfold bind at 1. rewrite (append_assistant_turn_run _ _ _ _ _ Hr1).
  set (r2 := fresh (dom h1)).
  unfold bind, read, ret. rewrite lookup_insert_eq.
  eexists. split; [reflexivity|].
  intros r Hr.
  assert (r ≠ r1) as Hn1 by by apply fresh_not_live.
  assert (r ≠ r2) as Hn2.
  { apply fresh_not_live. subst h1. by rewrite lookup_insert_ne. }
  subst h1. by rewrite !lookup_insert_ne.
Qed.

Lemma execute_outputs_witness :
  ∃ h' : heap,
    execute Settings.environ_get Settings.loads Examples.toy_dumps Settings.client
      "https://api.openai.com/v1/" "sk-1" "gpt-4o-mini" (Some "[hello]") "[]"
      Settings.one 0 Settings.one ∅
    = Ok (mkNodeOutput
            [VStr "";
             VStr (Examples.toy_dumps (VDict Examples.chat_payload));
             VStr (Examples.toy_dumps
                     (VList [tool_call (VStr "function") (VStr "c1")
                               (VStr "f") (VStr "{}")]));
             VStr (Examples.toy_dumps
                     (VList ([Settings.hello]
                             ++ [VDict (assistant_entry (VStr "")
                                   (VList [tool_call (VStr "function") (VStr "c1")
                                             (VStr "f") (VStr "{}")]))])))],
          h')
    ∧ ∀ r : loc, is_Some ((∅ : heap) !! r) → h' !! r = (∅ : heap) !! r.
Proof.
  refine (execute_outputs Settings.environ_get Settings.loads Examples.toy_dumps
            Settings.client "https://api.openai.com/v1/" "sk-1" "gpt-4o-mini"
            "[hello]" "[]" Settings.one 0 Settings.one Settings.hello [] (VList [])
            Examples.chat_payload (VStr "") _ ∅ _ _ eq_refl _ eq_refl eq_refl
            eq_refl eq_refl); discriminate.
Defined.

(** X17. A trailing slash on [api_base] makes no difference to
    [execute]. *)
Theorem execute_ignores_trailing_slash
    (environ_get : string → string → string)
    (json_loads : string → result value) (json_dumps : value → string)
    (chat_completions_create : string → string → request → result dict)
    (api_base api_key model : string) (messages_json : option string)
    (tools_json : string) (temperature : spec_float) (max_tokens : Z)
    (timeout_seconds : spec_float) (h : heap) :
  execute environ_get json_loads json_dumps chat_completions_create
    (String.append api_base "/") api_key model messages_json tools_json temperature
    max_tokens timeout_seconds h
  = execute environ_get json_loads json_dumps chat_completions_create
      api_base api_key model messages_json tools_json temperature
      max_tokens timeout_seconds h.
Proof. unfold execute. by rewrite rstrip_slash_append_slash. Qed.

(** X18. Leaving [api_key] empty is the same as passing the value of
    [OPENAI_API_KEY]. *)
Theorem execute_reads_key_from_environment
    (environ_get : string → string → string)
    (json_loads : string → result value) (json_dumps : value → string)
    (chat_completions_create : string → string → request → result dict)
    (api_base model : string) (messages_json : option string)
    (tools_json : string) (temperature : spec_float) (max_tokens : Z)
    (timeout_seconds : spec_float) (h : heap) :
  execute environ_get json_loads json_dumps chat_completions_create
    api_base "" model messages_json tools_json temperature
    max_tokens timeout_seconds h
  = execute environ_get json_loads json_dumps chat_completions_create
      api_base (environ_get "OPENAI_API_KEY" "") model messages_json tools_json
      temperature max_tokens timeout_seconds h.
Proof.
  unfold execute. change ("" =? "")%string with true. cbv iota.
  destruct (String.eqb_spec (environ_get "OPENAI_API_KEY" "") "") as [->|Hne].
  - reflexivity.
  - apply String.eqb_neq in Hne. by rewrite Hne.
Qed.

(** X19. When [api_base] ends in [/chat/completions], the client is
    called with the base URL in front of it. *)
Theorem execute_drops_endpoint_suffix
    (environ_get : string → string → string)
    (json_loads : string → result value) (json_dumps : value → string)
    (chat_completions_create : string → string → request → result dict)
    (base api_key model : string) (messages_json : option string)
    (tools_json : string) (temperature : spec_float) (max_tokens : Z)
    (timeout_seconds : spec_float) (h : heap) :
  execute environ_get json_loads json_dumps chat_completions_create
    (String.append base "/chat/completions") api_key model messages_json tools_json
    temperature max_tokens timeout_seconds h
  = execute environ_get json_loads json_dumps
      (λ key _ r, chat_completions_create key base r)
      (String.append base "/chat/completions") api_key model messages_json tools_json
      temperature max_tokens timeout_seconds h.
Proof.
  unfold execute.
  rewrite (rstrip_slash_keeps base "/chat/completions") by done.
  by rewrite removesuffix_append.
Qed.

(** ** The message builder *)

(** The [content] list built from the text and the image. *)
Lemma message_content_parts
    (tensor_to_data_uri : Tensor → string → result string)
    (content : string) (image : option Tensor) (image_parts : list value) :
  match image with
  | None => image_parts = []
  | Some img =>
      ∃ uri, tensor_to_data_uri img "image/png" = Ok uri
             ∧ image_parts = [ChatMessagesCreate.image_part uri]
  end →
  let text_parts :=
    if (content =? "")%string then [] else [ChatMessagesCreate.text_part content] in
  match image with
  | Some img =>
      data_uri ← tensor_to_data_uri img "image/png";
      mret (text_parts ++ [ChatMessagesCreate.image_part data_uri])
  | None => mret text_parts
  end = Ok (text_parts ++ image_parts)
  ∧ (if Py.truthy (VList (text_parts ++ image_parts))
     then VList (text_parts ++ image_parts)
     else if (content =? "")%string then VList []
          else VList [ChatMessagesCreate.text_part content])
    = VList (text_parts ++ image_parts).
Proof.
  destruct image as [img|].
  - intros (uri & -> & ->). cbn [mbind result_bind]. split; [reflexivity|].
    by destruct (content =? "")%string.
  - intros ->. cbv zeta. rewrite app_nil_r. split; [reflexivity|].
    by destruct (content =? "")%string.
Qed.

Lemma plain_message_run
    (json_loads : string → result value) (json_dumps : value → string)
    (tensor_to_data_uri : Tensor → string → result string)
    (messages_json role content : string) (image : option Tensor)
    (msgs image_parts : list value) :
  role ≠ "tool" →
  (messages_json = "" ∧ msgs = [])
  ∨ (messages_json ≠ "" ∧ json_loads messages_json = Ok (VList msgs)) →
  match image with
  | None => image_parts = []
  | Some img =>
      ∃ uri, tensor_to_data_uri img "image/png" = Ok uri
             ∧ image_parts = [ChatMessagesCreate.image_part uri]
  end →
  ChatMessagesCreate.execute json_loads json_dumps tensor_to_data_uri
    messages_json role content image
  = Ok (mkNodeOutput
          [VStr (json_dumps
             (VList (msgs
                     ++ [VDict [("role", VStr role);
                                ("content",
                                 VList ((if (content =? "")%string then []
                                         else [ChatMessagesCreate.text_part content])
                                        ++ image_parts))]])))]).
Proof.
  intros Hrole%String.eqb_neq Hmsgs Himg.
  destruct (message_content_parts tensor_to_data_uri content image image_parts Himg)
    as [Hparts Hcontent].
  unfold ChatMessagesCreate.execute.
  assert ((if (messages_json =? "")%string then Ok []
           else v ← json_loads messages_json; Py.iter v) = Ok msgs) as ->.
  { destruct Hmsgs as [[-> ->]|[Hne%String.eqb_neq Hload]]; [reflexivity|].
    by rewrite Hne, Hload. }
  cbn [mbind result_bind]. cbv zeta in Hparts, Hcontent. rewrite Hparts.
  cbn [mbind result_bind]. rewrite Hcontent, Hrole. reflexivity.
Qed.

(** X20. For a role other than [tool], [ChatMessagesCreate.execute]
    never looks at the earlier messages: it returns them followed by
    [{"role": role, "content": parts}], where [parts] is the text part
    (when the text is non-empty) followed by the image part (when an
    image is given), and no [tool_call_id]; an empty [messages_json]
    starts a new list without being parsed. *)
Theorem plain_message_appended
    (json_loads : string → result value) (json_dumps : value → string)
    (tensor_to_data_uri : Tensor → string → result string)
    (messages_json role content : string) (image : option Tensor)
    (msgs image_parts : list value) :
  role ≠ "tool" →
  (messages_json = "" ∧ msgs = [])
  ∨ (messages_json ≠ "" ∧ json_loads messages_json = Ok (VList msgs)) →
  match image with
  | None => image_parts = []
  | Some img =>
      ∃ uri, tensor_to_data_uri img "image/png" = Ok uri
             ∧ image_parts = [ChatMessagesCreate.image_part uri]
  end →
  ChatMessagesCreate.execute json_loads json_dumps tensor_to_data_uri
    messages_json role content image
  = Ok (mkNodeOutput
          [VStr (json_dumps
             (VList (msgs
                     ++ [VDict [("role", VStr role);
                                ("content",
                                 VList ((if (content =? "")%string then []
                                         else [ChatMessagesCreate.text_part content])
                                        ++ image_parts))]])))]).
Proof. apply plain_message_run. Qed.

Lemma plain_message_appended_witness :
  ChatMessagesCreate.execute Settings.loads Examples.toy_dumps Examples.toy_data_uri
    "" "user" "hello" (Some (mkTensor [1; 8; 8; 3]))
  = Ok (mkNodeOutput
          [VStr (Examples.toy_dumps
             (VList ([] ++ [VDict [("role", VStr "user");
                                   ("content",
                                    VList ([ChatMessagesCreate.text_part "hello"]
                                           ++ [ChatMessagesCreate.image_part
                                                 "data:image/png;base64,"]))]])))]).
Proof.
  refine (plain_message_appended Settings.loads Examples.toy_dumps
            Examples.toy_data_uri "" "user" "hello" (Some (mkTensor [1; 8; 8; 3]))
            [] [ChatMessagesCreate.image_part "data:image/png;base64,"]
            _ (or_introl (conj eq_refl eq_refl)) _); [discriminate|].
  by eexists.
Defined.

(** X21. Two builders in a row: when the parser reads back what the
    serialiser wrote for the first result, feeding the first output to
    a second builder gives the original messages followed by the two
    new messages, in order. *)
Theorem plain_messages_chain
    (json_loads : string → result value) (json_dumps : value → string)
    (tensor_to_data_uri : Tensor → string → result string)
    (messages_json role1 content1 role2 content2 : string) (msgs : list value) :
  role1 ≠ "tool" →
  role2 ≠ "tool" →
  (messages_json = "" ∧ msgs = [])
  ∨ (messages_json ≠ "" ∧ json_loads messages_json = Ok (VList msgs)) →
  let message role content :=
    VDict [("role", VStr role);
           ("content", VList (if (content =? "")%string then []
                              else [ChatMessagesCreate.text_part content]))] in
  json_dumps (VList (msgs ++ [message role1 content1])) ≠ "" →
  json_loads (json_dumps (VList (msgs ++ [message role1 content1])))
  = Ok (VList (msgs ++ [message role1 content1])) →
  ∃ out1 : string,
    ChatMessagesCreate.execute json_loads json_dumps tensor_to_data_uri
      messages_json role1 content1 None = Ok (mkNodeOutput [VStr out1])
    ∧ ChatMessagesCreate.execute json_loads json_dumps tensor_to_data_uri
        out1 role2 content2 None
      = Ok (mkNodeOutput
              [VStr (json_dumps
                 (VList (msgs ++ [message role1 content1; message role2 content2])))]).
Proof.
  intros H1 H2 Hmsgs message Hne Hround. subst message. cbv beta in Hne, Hround |- *.
  eexists. split.
  - rewrite (plain_message_run json_loads json_dumps tensor_to_data_uri
               messages_json role1 content1 None msgs [] H1 Hmsgs eq_refl).
    rewrite app_nil_r. reflexivity.
  - rewrite (plain_message_run json_loads json_dumps tensor_to_data_uri
               _ role2 content2 None _ [] H2 (or_intror (conj Hne Hround)) eq_refl).
    rewrite app_nil_r, <- app_assoc. reflexivity.
Qed.

Lemma plain_messages_chain_witness :
  ∃ out1 : string,
    ChatMessagesCreate.execute Settings.loads Examples.toy_dumps Examples.toy_data_uri
      "" "user" "hello" None = Ok (mkNodeOutput [VStr out1])
    ∧ ChatMessagesCreate.execute Settings.loads Examples.toy_dumps
        Examples.toy_data_uri out1 "assistant" "" None
      = Ok (mkNodeOutput
              [VStr (Examples.toy_dumps
                 (VList ([] ++ [Settings.hello;
                                VDict [("role", VStr "assistant");
                                       ("content", VList [])]])))]).
Proof.
  refine (plain_messages_chain Settings.loads Examples.toy_dumps Examples.toy_data_uri
            "" "user" "hello" "assistant" "" [] _ _
            (or_introl (conj eq_refl eq_refl)) _ eq_refl); discriminate.
Defined.

(** X22. After the completion node has appended an assistant turn
    whose last tool call has a truthy [id], a [tool] message built on
    that log carries this [id], whatever the earlier messages are. *)
Theorem tool_message_answers_last_call
    (json_loads : string → result value) (json_dumps : value → string)
    (tensor_to_data_uri : Tensor → string → result string)
    (messages_json content : string) (ms calls : list value)
    (text t id name arguments : value) :
  messages_json ≠ "" →
  json_loads messages_json
  = Ok (VList (ms ++ [VDict (assistant_entry text
                               (VList (calls ++ [tool_call t id name arguments])))])) →
  Py.truthy id = true →
  ChatMessagesCreate.execute json_loads json_dumps tensor_to_data_uri
    messages_json "tool" content None
  = Ok (mkNodeOutput
          [VStr (json_dumps
             (VList ((ms ++ [VDict (assistant_entry text
                               (VList (calls ++ [tool_call t id name arguments])))])
                     ++ [VDict [("role", VStr "tool");
                                ("content",
                                 VList (if (content =? "")%string then []
                                        else [ChatMessagesCreate.text_part content]));
                                ("tool_call_id", id)]])))]).
Proof.
  intros Hne%String.eqb_neq Hload Hid. unfold ChatMessagesCreate.execute.
  rewrite Hne, Hload. cbn [mbind result_bind Py.iter mret result_ret].
  rewrite String.eqb_refl, rev_unit.
  assert (∀ rest,
    ChatMessagesCreate.find_tool_call_id
      (VDict (assistant_entry text (VList (calls ++ [tool_call t id name arguments])))
       :: rest) (VStr "") = Ok id) as ->.
  { intros rest. cbn [ChatMessagesCreate.find_tool_call_id Py.get mbind result_bind].
    assert (Py.dget (assistant_entry text
                       (VList (calls ++ [tool_call t id name arguments])))
              "tool_calls" VNone
            = VList (calls ++ [tool_call t id name arguments])) as ->.
    { unfold assistant_entry, Py.dget.
      assert (Py.truthy (VList (calls ++ [tool_call t id name arguments])) = true)
        as -> by by destruct calls.
      by destruct (Py.truthy text). }
    assert (Py.eq_str (Py.dget (assistant_entry text
                         (VList (calls ++ [tool_call t id name arguments])))
                         "role" VNone) "assistant" = true) as -> by reflexivity.
    cbn [negb].
    destruct (calls ++ [tool_call t id name arguments]) as [|c cs] eqn:E;
      [by destruct calls|].
    assert (Py.last_item c (c :: cs) = tool_call t id name arguments) as ->.
    { unfold Py.last_item. rewrite <- E. apply last_last. }
    unfold tool_call, Py.or_. cbn [Py.dget Py.dict_get String.eqb Ascii.eqb Bool.eqb].
    by rewrite !Hid. }
  cbn [mbind result_bind]. rewrite Hid. cbn [negb mbind result_bind mret result_ret].
  by destruct (content =? "")%string.
Qed.

Lemma tool_message_answers_last_call_witness :
  ∃ log : list value,
    Settings.loads "calls" = Ok (VList log)
    ∧ ChatMessagesCreate.execute Settings.loads Examples.toy_dumps
        Examples.toy_data_uri "calls" "tool" "42" None
      = Ok (mkNodeOutput
              [VStr (Examples.toy_dumps
                 (VList (log
                         ++ [VDict [("role", VStr "tool");
                                    ("content",
                                     VList [ChatMessagesCreate.text_part "42"]);
                                    ("tool_call_id", VStr "c2")]])))]).
Proof.
  eexists. split; [reflexivity|].
  refine (tool_message_answers_last_call Settings.loads Examples.toy_dumps
            Examples.toy_data_uri "calls" "42" [Settings.hello]
            [tool_call (VStr "function") (VStr "c1") (VStr "f") (VStr "{}")]
            (VStr "") (VStr "function") (VStr "c2") (VStr "g") (VStr "{}")
            _ eq_refl eq_refl).
  discriminate.
Defined.

(** X23. With [role="tool"], a last message that is not an object makes
    the search raise [AttributeError], before any earlier message is
    looked at. *)
Theorem tool_message_on_non_object
    (json_loads : string → result value) (json_dumps : value → string)
    (tensor_to_data_uri : Tensor → string → result string)
    (messages_json content : string) (image : option Tensor)
    (ms : list value) (v : value) :
  messages_json ≠ "" →
  json_loads messages_json = Ok (VList (ms ++ [v])) →
  Py.is_dict v = false →
  (∀ img, image = Some img → raises (tensor_to_data_uri img "image/png") = false) →
  ChatMessagesCreate.execute json_loads json_dumps tensor_to_data_uri
    messages_json "tool" content image
  = Raise AttributeError.
Proof.
  intros Hne%String.eqb_neq Hload Hv Himg. unfold ChatMessagesCreate.execute.
  rewrite Hne, Hload. cbn [mbind result_bind Py.iter].
  assert (∃ parts, (match image with
                    | Some img =>
                        data_uri ← tensor_to_data_uri img "image/png";
                        mret ((if (content =? "")%string then []
                               else [ChatMessagesCreate.text_part content])
                              ++ [ChatMessagesCreate.image_part data_uri])
                    | None =>
                        mret (if (content =? "")%string then []
                              else [ChatMessagesCreate.text_part content])
                    end) = Ok parts) as [parts ->].
  { destruct image as [img|]; [|by eexists].
    specialize (Himg img eq_refl).
    destruct (tensor_to_data_uri img "image/png"); [by eexists | discriminate]. }
  cbn [mbind result_bind]. rewrite String.eqb_refl, rev_unit.
  by destruct v.
Qed.

Lemma tool_message_on_non_object_witness :
  ChatMessagesCreate.execute Settings.loads Examples.toy_dumps Examples.toy_data_uri
    "broken" "tool" "42" None
  = Raise AttributeError.
Proof.
  refine (tool_message_on_non_object Settings.loads Examples.toy_dumps
            Examples.toy_data_uri "broken" "42" None [Settings.hello] (VInt 7)
            _ eq_refl eq_refl _); [discriminate | intros; discriminate].
Defined.
